(** * Beer Pong match API: a shallow embedding of [main.py] and [schemas.py]

    The handlers of [main.py] read a match document from the MongoDB
    collection ["match"], compute the next state and write it back.  The
    collection is modelled as a finite map from the document identifier to
    the document, a document as a finite map from field names to BSON
    values, and a handler as a function in a state-and-exception monad over
    the collection. *)

From Stdlib Require Import ZArith Ascii String List.
From stdpp Require Import base option strings gmap.

Local Open Scope string_scope.
Local Open Scope Z_scope.

(** ** Values, documents and the collection *)

(** The values this program stores in a document: [None], integers,
    strings, datetimes (a number of ticks), arrays and embedded documents. *)
#[warnings="-register-all"]
Inductive value : Type :=
| VNone
| VInt (z : Z)
| VStr (s : string)
| VTime (t : Z)
| VList (l : list value)
| VDict (d : list (string * value)).

(** A stored document without its ["_id"], which is the key of the
    collection: [find_one] and [update_one] are only called with a filter on
    ["_id"], which is unique and never written. *)
Abbreviation document := (gmap string value).

(** [db["match"]], keyed by the canonical rendering of the ObjectId. *)
Abbreviation store := (gmap string (gmap string value)).

(** ** Exceptions and the handler monad *)

Inductive exn : Type :=
| HTTPException (status_code : Z) (detail : string)
| ValidationError (model : string) (fields : list string)
| TypeError
| ValueError
| WriteError.

Inductive outcome (T : Type) : Type :=
| Ok (a : T)
| Raise (e : exn).
Arguments Ok {T} a.
Arguments Raise {T} e.

(** A handler step: it reads and writes the collection, and returns or
    raises. *)
Definition M (T : Type) : Type := store -> outcome T * store.

Definition ret {T} (a : T) : M T := fun st => (Ok a, st).
Definition raise {T} (e : exn) : M T := fun st => (Raise e, st).
Definition bind {T U} (m : M T) (k : T -> M U) : M U :=
  fun st =>
    match m st with
    | (Ok a, st') => k a st'
    | (Raise e, st') => (Raise e, st')
    end.
(** A computation that does not touch the collection. *)
Definition lift {T} (o : outcome T) : M T := fun st => (o, st).

Declare Scope handler_scope.
Delimit Scope handler_scope with handler.
Notation "'do' x <- m ; k" := (bind m (fun x => k))
  (at level 10, x name, m at level 100, k at level 200) : handler_scope.
Notation "'do_' m ; k" := (bind m (fun _ => k))
  (at level 10, m at level 100, k at level 200) : handler_scope.
Local Open Scope handler_scope.

(** ** Python and pymongo primitives *)

(** [doc.get(k)] and [doc.get(k, d)]. *)
Definition doc_get (doc : document) (k : string) : value :=
  default VNone (doc !! k).
Definition doc_get_or (doc : document) (k : string) (d : value) : value :=
  default d (doc !! k).

(** [v == s] for a string literal [s]. *)
Definition py_eq_str (v : value) (s : string) : bool :=
  match v with
  | VStr t => bool_decide (t = s)
  | _ => false
  end.

(** [db["match"].find_one({"_id": oid})]. *)
Definition find_one (oid : string) : M (option document) :=
  fun st => (Ok (st !! oid), st).

(** The ["$set"] part of an update: each listed field is overwritten or
    created. *)
Definition apply_set (sets : list (string * value)) (doc : document) : document :=
  foldl (fun d kv => <[kv.1 := kv.2]> d) doc sets.

(** The ["$push"] part: the value is appended to the array in the field; an
    absent field becomes a one-element array; a field that holds anything
    else makes the whole update fail. *)
Definition apply_push (push : option (string * value)) (doc : document)
  : option document :=
  match push with
  | None => Some doc
  | Some (field, v) =>
      match doc !! field with
      | None => Some (<[field := VList [v]]> doc)
      | Some (VList l) => Some (<[field := VList (l ++ [v])]> doc)
      | Some _ => None
      end
  end.

(** [db["match"].update_one({"_id": oid}, {"$set": sets, "$push": push})]:
    one atomic write of the matched document; no document matched is not an
    error. *)
Definition update_one (oid : string) (sets : list (string * value))
    (push : option (string * value)) : M unit :=
  fun st =>
    match st !! oid with
    | None => (Ok tt, st)
    | Some doc =>
        match apply_push push (apply_set sets doc) with
        | Some doc' => (Ok tt, <[oid := doc']> st)
        | None => (Raise WriteError, st)
        end
    end.

(** ** schemas.py *)

Inductive team : Type := TeamA | TeamB.

(** The literal ['A'] or ['B']. *)
Definition team_code (t : team) : string :=
  match t with TeamA => "A" | TeamB => "B" end.

Inductive status : Type := ongoing | finished.

Definition status_code (s : status) : string :=
  match s with ongoing => "ongoing" | finished => "finished" end.

Definition opt_str (o : option string) : value :=
  match o with Some s => VStr s | None => VNone end.

Module HitEvent.
Record t : Type := mk {
  team_ : team;
  shooter : option string;
  cups : Z;
  timestamp : Z
}.

(** [HitEvent(team=..., shooter=..., cups=...)]: [cups] has [ge=1, le=10];
    [timestamp] is [datetime.utcnow()], here [now]. *)
Definition new (tm : team) (sh : option string) (c : Z) (now : Z) : outcome t :=
  if bool_decide (1 <= c) && bool_decide (c <= 10)
  then Ok (mk tm sh c now)
  else Raise (ValidationError "HitEvent" ["cups"]).

Definition model_dump (e : t) : value :=
  VDict [("team", VStr (team_code (team_ e)));
         ("shooter", opt_str (shooter e));
         ("cups", VInt (cups e));
         ("timestamp", VTime (timestamp e))].
End HitEvent.

Module Match.
Record t : Type := mk {
  team_a : string;
  team_b : string;
  cups_per_side : Z;
  cups_remaining_a : Z;
  cups_remaining_b : Z;
  status_ : status;
  winner : option team;
  events : list HitEvent.t
}.

(** The fields whose constraint fails, in declaration order:
    [cups_per_side] has [ge=1, le=20], [cups_remaining_a] and
    [cups_remaining_b] have [ge=0]. *)
Definition invalid_fields (cps cra crb : Z) : list string :=
  (if bool_decide (1 <= cps) && bool_decide (cps <= 20) then [] else ["cups_per_side"])
  ++ (if bool_decide (0 <= cra) then [] else ["cups_remaining_a"])
  ++ (if bool_decide (0 <= crb) then [] else ["cups_remaining_b"]).

(** [Match(team_a=..., team_b=..., cups_per_side=..., cups_remaining_a=...,
    cups_remaining_b=...)]; [status], [winner] and [events] take their
    defaults ['ongoing'], [None] and [[]]. *)
Definition new (ta tb : string) (cps cra crb : Z) : outcome t :=
  match invalid_fields cps cra crb with
  | [] => Ok (mk ta tb cps cra crb ongoing None [])
  | fs => Raise (ValidationError "Match" fs)
  end.

Definition model_dump (m : t) : document :=
  list_to_map
    [("team_a", VStr (team_a m));
     ("team_b", VStr (team_b m));
     ("cups_per_side", VInt (cups_per_side m));
     ("cups_remaining_a", VInt (cups_remaining_a m));
     ("cups_remaining_b", VInt (cups_remaining_b m));
     ("status", VStr (status_code (status_ m)));
     ("winner", opt_str (team_code <$> winner m));
     ("events", VList (HitEvent.model_dump <$> events m))].
End Match.

(** ** main.py: request models *)

Module CreateMatchRequest.
Record t : Type := mk {
  team_a : string;
  team_b : string;
  cups_per_side : Z
}.

(** The request body, where [cups_per_side] may be omitted: the field
    default is 10. *)
Definition parse (ta tb : string) (cps : option Z) : t :=
  mk ta tb (default 10 cps).
End CreateMatchRequest.

Module HitPayload.
Record t : Type := mk {
  team_ : team;
  shooter : option string;
  cups : Z
}.

(** The request body, where [shooter] and [cups] may be omitted. No
    constraint is declared on [cups]. *)
Definition parse (tm : team) (sh : option string) (c : option Z) : t :=
  mk tm sh (default 1 c).
End HitPayload.

Record HitResponse : Type := mkHitResponse {
  resp_ok : bool;
  resp_status : value;
  resp_winner : value
}.

(** Modelled from the spec: [create_document] of [database.py], which is not
    among the sources. The spec has the match inserted with the fields of the
    model and the creation timestamp set to now, and the newly assigned
    identifier returned. [new_id] is the identifier the database assigns. *)
Definition create_document (new_id : string) (now : Z) (m : Match.t) : M string :=
  fun st =>
    (Ok new_id,
     <[new_id := <["created_at" := VTime now]> (Match.model_dump m)]> st).

(** ** main.py: handlers *)

Section Handlers.

(** [ObjectId(s)] of [bson]: the identifier, or [None] where the library
    raises. *)
Variable ObjectId : string -> option string.

(** [int(s)] for a [str]: [None] where Python raises [ValueError]. *)
Variable int_of_str : string -> option Z.

Definition _to_obj_id (id_str : string) : M string :=
  match ObjectId id_str with
  | Some oid => ret oid
  | None => raise (HTTPException 400 "Invalid ID format")
  end.

(** [int(v)]. *)
Definition py_int (v : value) : outcome Z :=
  match v with
  | VInt z => Ok z
  | VStr s =>
      match int_of_str s with
      | Some z => Ok z
      | None => Raise ValueError
      end
  | _ => Raise TypeError
  end.

(** The response [{"id": match_id}] is its identifier. *)
Definition create_match (payload : CreateMatchRequest.t)
    (new_id : string) (now : Z) : M string :=
  do m <- lift (Match.new (CreateMatchRequest.team_a payload)
                          (CreateMatchRequest.team_b payload)
                          (CreateMatchRequest.cups_per_side payload)
                          (CreateMatchRequest.cups_per_side payload)
                          (CreateMatchRequest.cups_per_side payload));
  do match_id <- create_document new_id now m;
  ret match_id.

(** ["cups_remaining_b" if payload.team == 'A' else "cups_remaining_a"]. *)
Definition cups_field (tm : team) : string :=
  match tm with
  | TeamA => "cups_remaining_b"
  | TeamB => "cups_remaining_a"
  end.

(** [now] is the [datetime.utcnow()] of the event. A document that is found
    always has its ["_id"], so [not doc] holds only for [None]. *)
Definition record_hit (match_id : string) (payload : HitPayload.t)
    (now : Z) : M HitResponse :=
  do oid <- _to_obj_id match_id;
  do found <- find_one oid;
  match found with
  | None => raise (HTTPException 404 "Match not found")
  | Some doc =>
      if py_eq_str (doc_get doc "status") "finished"
      then raise (HTTPException 400 "Match already finished")
      else
        let field := cups_field (HitPayload.team_ payload) in
        do cur <- lift (py_int (doc_get_or doc field (VInt 0)));
        let new_value := Z.max 0 (cur - HitPayload.cups payload) in
        let winner := doc_get doc "winner" in
        let status := doc_get_or doc "status" (VStr "ongoing") in
        let '(status, winner) :=
          if new_value =? 0
          then (VStr "finished", VStr (team_code (HitPayload.team_ payload)))
          else (status, winner) in
        do event <- lift (HitEvent.new (HitPayload.team_ payload)
                                       (HitPayload.shooter payload)
                                       (HitPayload.cups payload) now);
        do oid' <- _to_obj_id match_id;
        do_ update_one oid'
              [(field, VInt new_value); ("status", status); ("winner", winner)]
              (Some ("events", HitEvent.model_dump event));
        ret (mkHitResponse true status winner)
  end.

(** The response [{"ok": True}] is its flag. *)
Definition reset_match (match_id : string) : M bool :=
  do oid <- _to_obj_id match_id;
  do found <- find_one oid;
  match found with
  | None => raise (HTTPException 404 "Match not found")
  | Some doc =>
      do cups <- lift (py_int (doc_get_or doc "cups_per_side" (VInt 10)));
      do oid' <- _to_obj_id match_id;
      do_ update_one oid'
            [("cups_remaining_a", VInt cups); ("cups_remaining_b", VInt cups);
             ("status", VStr "ongoing"); ("winner", VNone); ("events", VList [])]
            None;
      ret true
  end.

(** The collections the API can produce, from the empty one; the database
    assigns an identifier that is not in use. *)
Inductive reachable : store -> Prop :=
| reach_empty : reachable ∅
| reach_create st payload new_id now :
    reachable st -> st !! new_id = None ->
    reachable (create_match payload new_id now st).2
| reach_hit st match_id payload now :
    reachable st -> reachable (record_hit match_id payload now st).2
| reach_reset st match_id :
    reachable st -> reachable (reset_match match_id st).2.

End Handlers.

(** ** Properties of match documents *)

(** The hitting team's own remaining-cup field. *)
Definition own_field (tm : team) : string :=
  match tm with
  | TeamA => "cups_remaining_a"
  | TeamB => "cups_remaining_b"
  end.

Definition is_finished (doc : document) : Prop :=
  doc_get doc "status" = VStr "finished".

Definition winner_set (doc : document) : Prop :=
  doc_get doc "winner" <> VNone.

Definition winner_iff_finished (doc : document) : Prop :=
  winner_set doc <-> is_finished doc.

(** The document has the fields of the [Match] schema that the handlers read
    or push to, with the types of the schema. *)
Definition conforms (doc : document) : Prop :=
  (exists n, doc !! "cups_per_side" = Some (VInt n)) /\
  (exists a, doc !! "cups_remaining_a" = Some (VInt a)) /\
  (exists b, doc !! "cups_remaining_b" = Some (VInt b)) /\
  (exists l, doc !! "events" = Some (VList l)).

(** What every document of a reachable collection satisfies. *)
Definition doc_wf (doc : document) : Prop :=
  exists n a b l,
    doc !! "cups_per_side" = Some (VInt n) /\
    doc !! "cups_remaining_a" = Some (VInt a) /\
    doc !! "cups_remaining_b" = Some (VInt b) /\
    doc !! "events" = Some (VList l) /\
    1 <= n <= 20 /\ 0 <= a <= n /\ 0 <= b <= n /\
    ((doc !! "status" = Some (VStr "ongoing") /\
      doc !! "winner" = Some VNone /\ 1 <= a /\ 1 <= b)
     \/ (doc !! "status" = Some (VStr "finished") /\
         exists tm, doc !! "winner" = Some (VStr (team_code tm)))).

Definition store_wf (st : store) : Prop :=
  forall oid doc, st !! oid = Some doc -> doc_wf doc.

(** The status and winner a hit writes, from the clamped new value. *)
Definition hit_status_winner (doc : document) (tm : team) (new_value : Z)
    (s w : value) : Prop :=
  if new_value =? 0
  then s = VStr "finished" /\ w = VStr (team_code tm)
  else s = doc_get_or doc "status" (VStr "ongoing") /\ w = doc_get doc "winner".

(** ** Instances for the examples *)

Definition lower_hex (c : ascii) : bool :=
  let n := Ascii.N_of_ascii c in
  ((48 <=? n) && (n <=? 57) || (97 <=? n) && (n <=? 102))%N.

(** An [ObjectId] that accepts the canonical renderings: 24 lower-case
    hexadecimal digits. *)
Definition hex24 (s : string) : option string :=
  if (String.length s =? 24)%nat && forallb lower_hex (list_ascii_of_string s)
  then Some s else None.

Fixpoint digits_value (acc : Z) (l : list ascii) : option Z :=
  match l with
  | [] => Some acc
  | c :: l' =>
      let n := Ascii.N_of_ascii c in
      if ((48 <=? n) && (n <=? 57))%N
      then digits_value (10 * acc + (Z.of_N n - 48)) l'
      else None
  end.

(** An [int] on strings that accepts the non-empty strings of ASCII
    digits. *)
Definition digits_int (s : string) : option Z :=
  match list_ascii_of_string s with
  | [] => None
  | l => digits_value 0 l
  end.

Definition red_blue_id : string := "507f1f77bcf86cd799439011".

(** A fresh match with five cups per side, created at time 0. *)
Definition red_blue_store : store :=
  (create_match (CreateMatchRequest.parse "Red" "Blue" (Some 5)) red_blue_id 0 ∅).2.

Definition red_blue_doc : document :=
  <["created_at" := VTime 0]>
    (Match.model_dump (Match.mk "Red" "Blue" 5 5 5 ongoing None [])).

(** The same match after team A hit five cups at time 1. *)
Definition red_blue_finished : store :=
  (record_hit hex24 digits_int red_blue_id
     (HitPayload.parse TeamA (Some "Ann") (Some 5)) 1 red_blue_store).2.

(** ** main.py: reading one match *)

Section Reads.

Variable ObjectId : string -> option string.

(** [doc["id"] = str(doc.pop("_id"))]: the identifier is the key of the
    collection, so the returned dictionary is the stored document with the
    rendering of the key under ["id"]. The collection is not written. *)
Definition get_match (match_id : string) : M document :=
  do oid <- _to_obj_id ObjectId match_id;
  do found <- find_one oid;
  match found with
  | None => raise (HTTPException 404 "Match not found")
  | Some doc => ret (<["id" := VStr oid]> doc)
  end.

End Reads.

(** ** The event log of a match *)

(** A field of an embedded document. *)
Fixpoint dict_get (d : list (string * value)) (k : string) : option value :=
  match d with
  | [] => None
  | (k', v) :: d' => if bool_decide (k' = k) then Some v else dict_get d' k
  end.

(** The cups an event credits to team [tm]: its ["cups"] when its ["team"]
    is the code of [tm]. *)
Definition event_cups (tm : team) (e : value) : Z :=
  match e with
  | VDict d =>
      match dict_get d "team", dict_get d "cups" with
      | Some (VStr t), Some (VInt c) =>
          if bool_decide (t = team_code tm) then c else 0
      | _, _ => 0
      end
  | _ => 0
  end.

(** The cups the events of a log credit to team [tm], in total. *)
Definition cups_hit_by (tm : team) (l : list value) : Z :=
  foldr (fun e acc => event_cups tm e + acc) 0 l.

(** The dump of a valid [HitEvent]. *)
Definition is_hit_event (e : value) : Prop :=
  exists tm sh c t,
    1 <= c <= 10 /\ e = HitEvent.model_dump (HitEvent.mk tm sh c t).

(** What the event log of every document of a reachable collection
    satisfies, beside [doc_wf]. *)
Definition doc_log_ok (doc : document) : Prop :=
  exists n a b l,
    doc !! "cups_per_side" = Some (VInt n) /\
    doc !! "cups_remaining_a" = Some (VInt a) /\
    doc !! "cups_remaining_b" = Some (VInt b) /\
    doc !! "events" = Some (VList l) /\
    Forall is_hit_event l /\
    a = Z.max 0 (n - cups_hit_by TeamB l) /\
    b = Z.max 0 (n - cups_hit_by TeamA l) /\
    Z.of_nat (length l) <= 2 * n - a - b /\
    (forall tm, doc !! "winner" = Some (VStr (team_code tm)) ->
       doc !! cups_field tm = Some (VInt 0) /\
       (exists x, doc !! own_field tm = Some (VInt x) /\ 1 <= x) /\
       exists sh c t, last l = Some (HitEvent.model_dump (HitEvent.mk tm sh c t))).

Definition store_log_ok (st : store) : Prop :=
  forall oid doc, st !! oid = Some doc -> doc_log_ok doc.

(** The [Match] passes the validation of the schema, and so do its
    events. *)
Definition Match_valid (m : Match.t) : Prop :=
  Match.invalid_fields (Match.cups_per_side m) (Match.cups_remaining_a m)
                       (Match.cups_remaining_b m) = [] /\
  Forall (fun e => 1 <= HitEvent.cups e <= 10) (Match.events m).

(** The document is what [create_document] stores for a valid [Match]. *)
Definition doc_is_match (doc : document) : Prop :=
  exists (m : Match.t) t,
    Match_valid m /\ doc = <["created_at" := VTime t]> (Match.model_dump m).

(** * Properties of the handlers *)

Section Proofs.

Variable ObjectId : string -> option string.
Variable int_of_str : string -> option Z.

#[local] Arguments apply_push : simpl never.
#[local] Arguments apply_set : simpl never.
#[local] Arguments update_one : simpl never.

Lemma py_eq_str_true v s : py_eq_str v s = true <-> v = VStr s.
Proof.
  destruct v; simpl; try (split; [discriminate | congruence]).
  rewrite bool_decide_eq_true. split; congruence.
Qed.

Lemma py_eq_str_false v s : py_eq_str v s = false <-> v <> VStr s.
Proof.
  rewrite <- py_eq_str_true. destruct (py_eq_str v s); split; congruence.
Qed.

Lemma HitEvent_new_Ok tm sh c now ev :
  HitEvent.new tm sh c now = Ok ev <-> 1 <= c <= 10 /\ ev = HitEvent.mk tm sh c now.
Proof.
  unfold HitEvent.new.
  destruct (bool_decide (1 <= c)) eqn:E1, (bool_decide (c <= 10)) eqn:E2; simpl;
    try apply bool_decide_eq_true in E1; try apply bool_decide_eq_true in E2;
    try apply bool_decide_eq_false in E1; try apply bool_decide_eq_false in E2;
    split; try discriminate; try (intros [? ?]; lia).
  - intros [= <-]. split; [lia | done].
  - intros [_ ->]. done.
Qed.

Lemma HitEvent_new_Raise tm sh c now :
  ~ 1 <= c <= 10 ->
  HitEvent.new tm sh c now = Raise (ValidationError "HitEvent" ["cups"]).
Proof.
  intros H. unfold HitEvent.new.
  destruct (bool_decide (1 <= c)) eqn:E1, (bool_decide (c <= 10)) eqn:E2; simpl; try done.
  apply bool_decide_eq_true in E1. apply bool_decide_eq_true in E2. lia.
Qed.

(** The document a hit writes: the three fields of ["$set"] and the pushed
    event; every other field is the old one. *)
Lemma hit_doc_lookups tm v s w e (doc doc' : document) :
  apply_push (Some ("events", e))
    (apply_set [(cups_field tm, v); ("status", s); ("winner", w)] doc) = Some doc' ->
  doc' !! cups_field tm = Some v /\
  doc' !! "status" = Some s /\
  doc' !! "winner" = Some w /\
  (exists l, doc' !! "events" = Some (VList (l ++ [e])) /\
             (doc !! "events" = Some (VList l) \/ doc !! "events" = None /\ l = [])) /\
  (forall k, k <> cups_field tm -> k <> "status" -> k <> "winner" -> k <> "events" ->
             doc' !! k = doc !! k).
Proof.
  unfold apply_push, apply_set; simpl.
  assert (Hf : cups_field tm <> "events" /\ cups_field tm <> "status"
               /\ cups_field tm <> "winner") by (by destruct tm).
  destruct Hf as (Hf1 & Hf2 & Hf3).
  rewrite !lookup_insert_ne by done.
  assert (Hrest : forall d : document,
             <["winner":=w]> (<["status":=s]> (<[cups_field tm:=v]> doc)) = d ->
             forall ev, <["events":=ev]> d !! cups_field tm = Some v /\
             <["events":=ev]> d !! "status" = Some s /\
             <["events":=ev]> d !! "winner" = Some w /\
             (forall k, k <> cups_field tm -> k <> "status" -> k <> "winner" ->
                        k <> "events" -> <["events":=ev]> d !! k = doc !! k)).
  { intros d <- ev. repeat split.
    - by rewrite !lookup_insert_ne, lookup_insert_eq by done.
    - by rewrite !lookup_insert_ne, lookup_insert_eq by done.
    - by rewrite !lookup_insert_ne, lookup_insert_eq by done.
    - intros k ? ? ? ?. by rewrite !lookup_insert_ne by done. }
  destruct (doc !! "events") as [[]|] eqn:Hev; intros [= <-].
  - destruct (Hrest _ eq_refl (VList (l ++ [e]))) as (H1 & H2 & H3 & H4).
    repeat split; try done. exists l. rewrite lookup_insert_eq. auto.
  - destruct (Hrest _ eq_refl (VList [e])) as (H1 & H2 & H3 & H4).
    repeat split; try done. exists []. rewrite lookup_insert_eq. auto.
Qed.

(** [record_hit] on a match that is found and not finished, up to the
    write. *)
Lemma record_hit_found id oid (doc : document) p now (st : store) cur :
  ObjectId id = Some oid -> st !! oid = Some doc ->
  doc_get doc "status" <> VStr "finished" ->
  py_int int_of_str (doc_get_or doc (cups_field (HitPayload.team_ p)) (VInt 0)) = Ok cur ->
  1 <= HitPayload.cups p <= 10 ->
  exists s w,
    hit_status_winner doc (HitPayload.team_ p)
      (Z.max 0 (cur - HitPayload.cups p)) s w /\
    record_hit ObjectId int_of_str id p now st =
      match apply_push
              (Some ("events",
                     HitEvent.model_dump
                       (HitEvent.mk (HitPayload.team_ p) (HitPayload.shooter p)
                                    (HitPayload.cups p) now)))
              (apply_set [(cups_field (HitPayload.team_ p),
                           VInt (Z.max 0 (cur - HitPayload.cups p)));
                          ("status", s); ("winner", w)] doc) with
      | Some doc' => (Ok (mkHitResponse true s w), <[oid := doc']> st)
      | None => (Raise WriteError, st)
      end.
Proof.
  intros Hid Hdoc Hst Hcur Hc.
  apply py_eq_str_false in Hst.
  pose proof (proj2 (HitEvent_new_Ok (HitPayload.team_ p) (HitPayload.shooter p)
                       (HitPayload.cups p) now _) (conj Hc eq_refl)) as Hev.
  unfold record_hit, _to_obj_id, bind, find_one, lift, ret, raise, hit_status_winner.
  rewrite Hid; simpl. rewrite Hdoc, Hst, Hcur, Hev.
  destruct (Z.max 0 (cur - HitPayload.cups p) =? 0); simpl;
    (do 2 eexists; split; [split; reflexivity |]);
    unfold update_one; rewrite Hdoc;
    match goal with |- context [apply_push ?a ?b] => destruct (apply_push a b) end;
    reflexivity.
Qed.

(** Every call of [record_hit] either raises and leaves the collection as
    it was, or is the write of [record_hit_found]. *)
Lemma record_hit_cases id p now (st : store) :
  (exists e, record_hit ObjectId int_of_str id p now st = (Raise e, st)) \/
  (exists oid (doc : document) cur s w (doc' : document),
     ObjectId id = Some oid /\ st !! oid = Some doc /\
     doc_get doc "status" <> VStr "finished" /\
     py_int int_of_str (doc_get_or doc (cups_field (HitPayload.team_ p)) (VInt 0)) = Ok cur /\
     1 <= HitPayload.cups p <= 10 /\
     hit_status_winner doc (HitPayload.team_ p)
       (Z.max 0 (cur - HitPayload.cups p)) s w /\
     apply_push
       (Some ("events",
              HitEvent.model_dump
                (HitEvent.mk (HitPayload.team_ p) (HitPayload.shooter p)
                             (HitPayload.cups p) now)))
       (apply_set [(cups_field (HitPayload.team_ p),
                    VInt (Z.max 0 (cur - HitPayload.cups p)));
                   ("status", s); ("winner", w)] doc) = Some doc' /\
     record_hit ObjectId int_of_str id p now st = (Ok (mkHitResponse true s w), <[oid := doc']> st)).
Proof.
  destruct (ObjectId id) as [oid|] eqn:Hid.
  2: { left. eexists. unfold record_hit, _to_obj_id, bind, raise. by rewrite Hid. }
  destruct (st !! oid) as [doc|] eqn:Hdoc.
  2: { left. eexists. unfold record_hit, _to_obj_id, bind, find_one, ret, raise.
       rewrite Hid; simpl. by rewrite Hdoc. }
  destruct (py_eq_str (doc_get doc "status") "finished") eqn:Hst.
  { left. eexists. unfold record_hit, _to_obj_id, bind, find_one, ret, raise.
    rewrite Hid; simpl. by rewrite Hdoc, Hst. }
  destruct (py_int int_of_str (doc_get_or doc (cups_field (HitPayload.team_ p)) (VInt 0)))
    as [cur|e] eqn:Hcur.
  2: { left. eexists. unfold record_hit, _to_obj_id, bind, find_one, lift, ret, raise.
       rewrite Hid; simpl. by rewrite Hdoc, Hst, Hcur. }
  destruct (decide (1 <= HitPayload.cups p <= 10)) as [Hc|Hc].
  2: { left. eexists. unfold record_hit, _to_obj_id, bind, find_one, lift, ret, raise.
       rewrite Hid; simpl. rewrite Hdoc, Hst, Hcur, (HitEvent_new_Raise _ _ _ _ Hc).
       by destruct (Z.max 0 (cur - HitPayload.cups p) =? 0). }
  apply py_eq_str_false in Hst.
  destruct (record_hit_found id oid doc p now st cur Hid Hdoc Hst Hcur Hc)
    as (s & w & Hsw & Heq).
  rewrite Heq.
  match goal with |- context [apply_push ?a ?b] =>
    destruct (apply_push a b) as [doc'|] eqn:Hpush end.
  - right. exists oid, doc, cur, s, w, doc'. repeat split; try done; lia.
  - left. eauto.
Qed.

(** [reset_match] on a match that is found. *)
Lemma reset_match_found id oid (doc : document) (st : store) n :
  ObjectId id = Some oid -> st !! oid = Some doc ->
  py_int int_of_str (doc_get_or doc "cups_per_side" (VInt 10)) = Ok n ->
  reset_match ObjectId int_of_str id st =
    (Ok true,
     <[oid := apply_set [("cups_remaining_a", VInt n); ("cups_remaining_b", VInt n);
                         ("status", VStr "ongoing"); ("winner", VNone);
                         ("events", VList [])] doc]> st).
Proof.
  intros Hid Hdoc Hn.
  unfold reset_match, _to_obj_id, bind, find_one, lift, ret, raise.
  rewrite Hid; simpl. rewrite Hdoc, Hn. unfold update_one. by rewrite Hdoc.
Qed.

Lemma reset_match_cases id (st : store) :
  (exists e, reset_match ObjectId int_of_str id st = (Raise e, st)) \/
  (exists oid (doc : document) n,
     ObjectId id = Some oid /\ st !! oid = Some doc /\
     py_int int_of_str (doc_get_or doc "cups_per_side" (VInt 10)) = Ok n /\
     reset_match ObjectId int_of_str id st =
       (Ok true,
        <[oid := apply_set [("cups_remaining_a", VInt n); ("cups_remaining_b", VInt n);
                            ("status", VStr "ongoing"); ("winner", VNone);
                            ("events", VList [])] doc]> st)).
Proof.
  destruct (ObjectId id) as [oid|] eqn:Hid.
  2: { left. eexists. unfold reset_match, _to_obj_id, bind, raise. by rewrite Hid. }
  destruct (st !! oid) as [doc|] eqn:Hdoc.
  2: { left. eexists. unfold reset_match, _to_obj_id, bind, find_one, ret, raise.
       rewrite Hid; simpl. by rewrite Hdoc. }
  destruct (py_int int_of_str (doc_get_or doc "cups_per_side" (VInt 10))) as [n|e] eqn:Hn.
  2: { left. eexists. unfold reset_match, _to_obj_id, bind, find_one, lift, ret, raise.
       rewrite Hid; simpl. by rewrite Hdoc, Hn. }
  right. exists oid, doc, n. repeat split; try done.
  by apply reset_match_found.
Qed.

(** The document a reset writes. *)
Lemma reset_doc_lookups n (doc : document) :
  let doc' := apply_set [("cups_remaining_a", VInt n); ("cups_remaining_b", VInt n);
                         ("status", VStr "ongoing"); ("winner", VNone);
                         ("events", VList [])] doc in
  doc' !! "cups_remaining_a" = Some (VInt n) /\
  doc' !! "cups_remaining_b" = Some (VInt n) /\
  doc' !! "status" = Some (VStr "ongoing") /\
  doc' !! "winner" = Some VNone /\
  doc' !! "events" = Some (VList []) /\
  (forall k, k <> "cups_remaining_a" -> k <> "cups_remaining_b" -> k <> "status" ->
             k <> "winner" -> k <> "events" -> doc' !! k = doc !! k).
Proof.
  unfold apply_set; simpl. repeat split.
  1-5: by rewrite ?lookup_insert_ne, lookup_insert_eq by done.
  intros k ? ? ? ? ?. by rewrite !lookup_insert_ne by done.
Qed.

(** [create_match]: the range check of [Match] decides. *)
Lemma create_match_valid payload new_id now (st : store) :
  1 <= CreateMatchRequest.cups_per_side payload <= 20 ->
  create_match payload new_id now st =
    (Ok new_id,
     <[new_id := <["created_at" := VTime now]>
                   (Match.model_dump
                      (Match.mk (CreateMatchRequest.team_a payload)
                                (CreateMatchRequest.team_b payload)
                                (CreateMatchRequest.cups_per_side payload)
                                (CreateMatchRequest.cups_per_side payload)
                                (CreateMatchRequest.cups_per_side payload)
                                ongoing None []))]> st).
Proof.
  intros Hc. unfold create_match, bind, lift, ret, create_document, Match.new,
    Match.invalid_fields.
  by rewrite !bool_decide_eq_true_2 by lia.
Qed.

Lemma create_match_invalid payload new_id now (st : store) :
  ~ 1 <= CreateMatchRequest.cups_per_side payload <= 20 ->
  exists fs,
    create_match payload new_id now st = (Raise (ValidationError "Match" fs), st) /\
    In "cups_per_side" fs.
Proof.
  intros Hc. unfold create_match, bind, lift, Match.new, Match.invalid_fields.
  destruct (bool_decide (1 <= CreateMatchRequest.cups_per_side payload)) eqn:E1,
           (bool_decide (CreateMatchRequest.cups_per_side payload <= 20)) eqn:E2;
    simpl.
  { apply bool_decide_eq_true in E1. apply bool_decide_eq_true in E2. lia. }
  all: eexists; split; [reflexivity | by left].
Qed.

(** The fields of a freshly created document. *)
Lemma created_doc_lookups ta tb c now :
  let doc := <["created_at" := VTime now]>
               (Match.model_dump (Match.mk ta tb c c c ongoing None [])) in
  doc !! "team_a" = Some (VStr ta) /\
  doc !! "team_b" = Some (VStr tb) /\
  doc !! "cups_per_side" = Some (VInt c) /\
  doc !! "cups_remaining_a" = Some (VInt c) /\
  doc !! "cups_remaining_b" = Some (VInt c) /\
  doc !! "status" = Some (VStr "ongoing") /\
  doc !! "winner" = Some VNone /\
  doc !! "events" = Some (VList []) /\
  doc !! "created_at" = Some (VTime now).
Proof. repeat split; reflexivity. Qed.

(** ** The invariant of reachable collections *)

Lemma created_doc_wf ta tb c now :
  1 <= c <= 20 ->
  doc_wf (<["created_at" := VTime now]>
            (Match.model_dump (Match.mk ta tb c c c ongoing None []))).
Proof.
  intros Hc.
  destruct (created_doc_lookups ta tb c now) as (_ & _ & Hn & Ha & Hb & Hs & Hw & He & _).
  exists c, c, c, []. repeat split; try done; try lia.
  left. repeat split; try done; lia.
Qed.

(** One hit on a well-formed, unfinished document: the written document is
    well-formed and neither remaining-cup field has grown. *)
Lemma hit_doc_wf tm c cur s w e (doc doc' : document) :
  doc_wf doc ->
  doc_get doc "status" <> VStr "finished" ->
  py_int int_of_str (doc_get_or doc (cups_field tm) (VInt 0)) = Ok cur ->
  1 <= c <= 10 ->
  hit_status_winner doc tm (Z.max 0 (cur - c)) s w ->
  apply_push (Some ("events", e))
    (apply_set [(cups_field tm, VInt (Z.max 0 (cur - c)));
                ("status", s); ("winner", w)] doc) = Some doc' ->
  doc_wf doc' /\
  forall a b,
    doc !! "cups_remaining_a" = Some (VInt a) ->
    doc !! "cups_remaining_b" = Some (VInt b) ->
    exists a' b',
      doc' !! "cups_remaining_a" = Some (VInt a') /\
      doc' !! "cups_remaining_b" = Some (VInt b') /\
      a' <= a /\ b' <= b.
Proof.
  intros (n & a & b & l & Hn & Ha & Hb & Hl & Hnr & Har & Hbr & Hsw) Hnf Hcur Hc Hnext Hpush.
  destruct (hit_doc_lookups _ _ _ _ _ _ _ Hpush) as (Hf' & Hs' & Hw' & (l' & Hl' & _) & Hk).
  destruct Hsw as [(Hs & Hw & Ha1 & Hb1) | (Hs & _)].
  2: { exfalso. apply Hnf. unfold doc_get. by rewrite Hs. }
  assert (Hn' : doc' !! "cups_per_side" = Some (VInt n)).
  { rewrite Hk; try done. by destruct tm. }
  assert (Hown : doc' !! own_field tm = doc !! own_field tm).
  { apply Hk; by destruct tm. }
  assert (Hcurv : doc !! cups_field tm = Some (VInt cur)).
  { unfold doc_get_or in Hcur.
    destruct tm; simpl in *; [rewrite Hb in Hcur | rewrite Ha in Hcur];
      simpl in Hcur; congruence. }
  assert (Hsw' :
    (doc' !! "status" = Some (VStr "ongoing") /\ doc' !! "winner" = Some VNone
     /\ 1 <= Z.max 0 (cur - c))
    \/ (doc' !! "status" = Some (VStr "finished")
        /\ exists tm', doc' !! "winner" = Some (VStr (team_code tm')))).
  { unfold hit_status_winner in Hnext.
    destruct (Z.max 0 (cur - c) =? 0) eqn:E; destruct Hnext as [-> ->].
    - right. split; [done | by exists tm].
    - left. apply Z.eqb_neq in E. unfold doc_get_or, doc_get in *.
      rewrite Hs in Hs'. rewrite Hw in Hw'. simpl in *. repeat split; try done. lia. }
  split.
  - destruct tm; simpl in *.
    + assert (cur = b) as -> by congruence.
      exists n, a, (Z.max 0 (b - c)), (l' ++ [e])%list.
      rewrite Hown. repeat split; try done; try lia.
      destruct Hsw' as [(? & ? & ?) | ?]; [left | right]; done.
    + assert (cur = a) as -> by congruence.
      exists n, (Z.max 0 (a - c)), b, (l' ++ [e])%list.
      rewrite Hown. repeat split; try done; try lia.
      destruct Hsw' as [(? & ? & ?) | ?]; [left | right]; done.
  - intros a0 b0 Ha0 Hb0.
    destruct tm; simpl in *.
    + assert (cur = b0) as -> by congruence.
      assert (b = b0) by congruence.
      exists a0, (Z.max 0 (b0 - c)). rewrite Hown.
      split; [done |]. split; [done |]. lia.
    + assert (cur = a0) as -> by congruence.
      assert (a = a0) by congruence.
      exists (Z.max 0 (a0 - c)), b0. rewrite Hown.
      split; [done |]. split; [done |]. lia.
Qed.

Lemma reset_doc_wf n (doc : document) :
  doc_wf doc ->
  py_int int_of_str (doc_get_or doc "cups_per_side" (VInt 10)) = Ok n ->
  doc_wf (apply_set [("cups_remaining_a", VInt n); ("cups_remaining_b", VInt n);
                     ("status", VStr "ongoing"); ("winner", VNone);
                     ("events", VList [])] doc).
Proof.
  intros (n0 & a & b & l & Hn & _ & _ & _ & Hnr & _) Hint.
  unfold doc_get_or in Hint. rewrite Hn in Hint. simpl in Hint.
  injection Hint as <-.
  destruct (reset_doc_lookups n0 doc) as (Ha' & Hb' & Hs' & Hw' & He' & Hk).
  exists n0, n0, n0, []. repeat split; try done; try lia.
  - by rewrite Hk.
  - left. repeat split; try done; lia.
Qed.

Lemma store_wf_insert (st : store) oid (doc : document) :
  store_wf st -> doc_wf doc -> store_wf (<[oid := doc]> st).
Proof.
  intros Hst Hdoc oid' doc'. rewrite lookup_insert.
  case_decide; [intros [= <-]; done | apply Hst].
Qed.

Lemma create_match_wf payload new_id now (st : store) :
  store_wf st -> store_wf (create_match payload new_id now st).2.
Proof.
  intros Hst.
  destruct (decide (1 <= CreateMatchRequest.cups_per_side payload <= 20)) as [Hc|Hc].
  - rewrite create_match_valid by done. simpl.
    apply store_wf_insert; [done | by apply created_doc_wf].
  - destruct (create_match_invalid payload new_id now st Hc) as (fs & -> & _). done.
Qed.

Lemma record_hit_wf id p now (st : store) :
  store_wf st -> store_wf (record_hit ObjectId int_of_str id p now st).2.
Proof.
  intros Hst.
  destruct (record_hit_cases id p now st)
    as [(e & ->) | (oid & doc & cur & s & w & doc' & _ & Hdoc & Hnf & Hcur & Hc & Hsw & Hpush & ->)];
    [done |]. simpl.
  apply store_wf_insert; [done |].
  by apply (hit_doc_wf _ _ _ _ _ _ _ _ (Hst _ _ Hdoc) Hnf Hcur Hc Hsw Hpush).
Qed.

Lemma reset_match_wf id (st : store) :
  store_wf st -> store_wf (reset_match ObjectId int_of_str id st).2.
Proof.
  intros Hst.
  destruct (reset_match_cases id st) as [(e & ->) | (oid & doc & n & _ & Hdoc & Hn & ->)];
    [done |]. simpl.
  apply store_wf_insert; [done |].
  by apply reset_doc_wf; [apply (Hst _ _ Hdoc) |].
Qed.

Lemma reachable_wf (st : store) : reachable ObjectId int_of_str st -> store_wf st.
Proof.
  induction 1.
  - intros oid doc. by rewrite lookup_empty.
  - by apply create_match_wf.
  - by apply record_hit_wf.
  - by apply reset_match_wf.
Qed.

Lemma doc_wf_conforms (doc : document) : doc_wf doc -> conforms doc.
Proof.
  intros (n & a & b & l & Hn & Ha & Hb & Hl & _). repeat split; eauto.
Qed.

(** Every match of a reachable collection has the fields of the schema. *)
Lemma reachable_conforms (st : store) oid (doc : document) :
  reachable ObjectId int_of_str st -> st !! oid = Some doc -> conforms doc.
Proof.
  intros Hreach Hdoc. apply doc_wf_conforms. by apply (reachable_wf st Hreach oid).
Qed.

(** ** The hit transition *)

(** C1. A recorded hit writes the opposing side's remaining-cup field: for
    team ['A'] the field [cups_remaining_b] becomes the clamped difference
    and [cups_remaining_a] is the old one; for team ['B'] the roles are
    exchanged. *)
Theorem record_hit_decrements_opposing_side
    id oid (doc : document) p now (st st' : store) resp :
  ObjectId id = Some oid -> st !! oid = Some doc ->
  record_hit ObjectId int_of_str id p now st = (Ok resp, st') ->
  exists (doc' : document) cur,
    st' !! oid = Some doc' /\
    match HitPayload.team_ p with
    | TeamA =>
        py_int int_of_str (doc_get_or doc "cups_remaining_b" (VInt 0)) = Ok cur /\
        doc' !! "cups_remaining_b" = Some (VInt (Z.max 0 (cur - HitPayload.cups p))) /\
        doc' !! "cups_remaining_a" = doc !! "cups_remaining_a"
    | TeamB =>
        py_int int_of_str (doc_get_or doc "cups_remaining_a" (VInt 0)) = Ok cur /\
        doc' !! "cups_remaining_a" = Some (VInt (Z.max 0 (cur - HitPayload.cups p))) /\
        doc' !! "cups_remaining_b" = doc !! "cups_remaining_b"
    end.
Proof.
  intros Hid Hdoc Hhit.
  destruct (record_hit_cases id p now st)
    as [(e & He) | (oid0 & doc0 & cur & s & w & doc' & Hid0 & Hdoc0 & _ & Hcur & _ & _ & Hpush & Heq)].
  { rewrite He in Hhit. discriminate. }
  rewrite Heq in Hhit. injection Hhit as _ <-.
  assert (oid0 = oid) as -> by congruence.
  assert (doc0 = doc) as -> by congruence.
  destruct (hit_doc_lookups _ _ _ _ _ _ _ Hpush) as (Hf & _ & _ & _ & Hk).
  exists doc', cur. split; [apply lookup_insert_eq |].
  destruct (HitPayload.team_ p); simpl in *;
    (split; [done |]; split; [done |]; by apply Hk).
Qed.

(** C2, as amended. A hit of 1 to 10 cups on a match that is not finished is
    written without error: the targeted field becomes
    [max 0 (current - cups)], which is never negative; when [cups] is at
    least the remaining count the field is exactly 0 and the match is
    finished; apart from the targeted field, [status], [winner] and [events]
    no field changes, so nothing records the excess. *)
Theorem record_hit_clamps_at_zero id oid (doc : document) p now (st : store) :
  ObjectId id = Some oid -> st !! oid = Some doc ->
  conforms doc -> ~ is_finished doc ->
  1 <= HitPayload.cups p <= 10 ->
  exists cur resp (doc' : document),
    doc !! cups_field (HitPayload.team_ p) = Some (VInt cur) /\
    record_hit ObjectId int_of_str id p now st = (Ok resp, <[oid := doc']> st) /\
    doc' !! cups_field (HitPayload.team_ p)
      = Some (VInt (Z.max 0 (cur - HitPayload.cups p))) /\
    0 <= Z.max 0 (cur - HitPayload.cups p) /\
    (cur <= HitPayload.cups p ->
       doc' !! cups_field (HitPayload.team_ p) = Some (VInt 0) /\
       doc' !! "status" = Some (VStr "finished") /\
       resp_status resp = VStr "finished") /\
    (forall k, k <> cups_field (HitPayload.team_ p) -> k <> "status" ->
               k <> "winner" -> k <> "events" -> doc' !! k = doc !! k).
Proof.
  intros Hid Hdoc (_ & (a & Ha) & (b & Hb) & (l & Hl)) Hnf Hc.
  assert (Hcur : exists cur, doc !! cups_field (HitPayload.team_ p) = Some (VInt cur)).
  { destruct (HitPayload.team_ p); simpl; eauto. }
  destruct Hcur as (cur & Hcur).
  assert (Hint : py_int int_of_str (doc_get_or doc (cups_field (HitPayload.team_ p)) (VInt 0)) = Ok cur).
  { unfold doc_get_or. by rewrite Hcur. }
  destruct (record_hit_found id oid doc p now st cur Hid Hdoc Hnf Hint Hc)
    as (s & w & Hsw & Heq).
  match type of Heq with context [apply_push ?x ?y] =>
    destruct (apply_push x y) as [doc'|] eqn:Hpush end.
  2: { exfalso. revert Hpush. unfold apply_push, apply_set; simpl.
       assert (cups_field (HitPayload.team_ p) <> "events")
         by (by destruct (HitPayload.team_ p)).
       rewrite !lookup_insert_ne by done. by rewrite Hl. }
  destruct (hit_doc_lookups _ _ _ _ _ _ _ Hpush) as (Hf & Hs & _ & _ & Hk).
  exists cur, (mkHitResponse true s w), doc'.
  split; [done |]. split; [done |]. split; [done |]. split; [lia |].
  split; [| done].
  intros Hle. unfold hit_status_winner in Hsw.
  assert (Z.max 0 (cur - HitPayload.cups p) = 0) as E by lia.
  rewrite E in *. simpl in Hsw. destruct Hsw as [-> _]. done.
Qed.

(** C3. For a recorded hit: when the clamped new value is 0 the written
    match is finished and its winner is the team of the payload; when it is
    not, status and winner are those of the current document. *)
Theorem record_hit_sets_status_and_winner
    id oid (doc : document) p now (st st' : store) resp :
  ObjectId id = Some oid -> st !! oid = Some doc ->
  record_hit ObjectId int_of_str id p now st = (Ok resp, st') ->
  exists (doc' : document) cur,
    st' !! oid = Some doc' /\
    py_int int_of_str (doc_get_or doc (cups_field (HitPayload.team_ p)) (VInt 0)) = Ok cur /\
    doc' !! cups_field (HitPayload.team_ p)
      = Some (VInt (Z.max 0 (cur - HitPayload.cups p))) /\
    (Z.max 0 (cur - HitPayload.cups p) = 0 ->
       doc' !! "status" = Some (VStr "finished") /\
       doc' !! "winner" = Some (VStr (team_code (HitPayload.team_ p))) /\
       resp_status resp = VStr "finished" /\
       resp_winner resp = VStr (team_code (HitPayload.team_ p))) /\
    (Z.max 0 (cur - HitPayload.cups p) <> 0 ->
       doc_get_or doc' "status" (VStr "ongoing")
         = doc_get_or doc "status" (VStr "ongoing") /\
       doc_get doc' "winner" = doc_get doc "winner" /\
       (is_Some (doc !! "status") -> doc' !! "status" = doc !! "status") /\
       (is_Some (doc !! "winner") -> doc' !! "winner" = doc !! "winner") /\
       resp_status resp = doc_get_or doc "status" (VStr "ongoing") /\
       resp_winner resp = doc_get doc "winner").
Proof.
  intros Hid Hdoc Hhit.
  destruct (record_hit_cases id p now st)
    as [(e & He) | (oid0 & doc0 & cur & s & w & doc' & Hid0 & Hdoc0 & _ & Hcur & _ & Hsw & Hpush & Heq)].
  { rewrite He in Hhit. discriminate. }
  rewrite Heq in Hhit. injection Hhit as <- <-.
  assert (oid0 = oid) as -> by congruence.
  assert (doc0 = doc) as -> by congruence.
  destruct (hit_doc_lookups _ _ _ _ _ _ _ Hpush) as (Hf & Hs & Hw & _ & _).
  exists doc', cur. split; [apply lookup_insert_eq |].
  split; [done |]. split; [done |].
  unfold hit_status_winner in Hsw.
  split; intros E.
  - rewrite E in Hsw. simpl in Hsw. destruct Hsw as [-> ->]. done.
  - apply Z.eqb_neq in E. rewrite E in Hsw. destruct Hsw as [-> ->].
    simpl. unfold doc_get_or, doc_get in *. rewrite Hs, Hw. simpl.
    repeat split; try done.
    + intros [v Hv]. by rewrite Hv.
    + intros [v Hv]. by rewrite Hv.
Qed.

(** C4. A hit on a finished match raises the HTTP 400 error
    ["Match already finished"] and the collection, hence every field of the
    match and its event log, is exactly as before. *)
Theorem record_hit_on_finished_match_fails id oid (doc : document) p now (st : store) :
  ObjectId id = Some oid -> st !! oid = Some doc -> is_finished doc ->
  record_hit ObjectId int_of_str id p now st = (Raise (HTTPException 400 "Match already finished"), st).
Proof.
  intros Hid Hdoc Hfin. apply py_eq_str_true in Hfin.
  unfold record_hit, _to_obj_id, bind, find_one, ret, raise.
  rewrite Hid; simpl. by rewrite Hdoc, Hfin.
Qed.

(** ** Invariants *)

Lemma doc_wf_winner_iff_finished (doc : document) :
  doc_wf doc -> winner_iff_finished doc.
Proof.
  intros (n & a & b & l & _ & _ & _ & _ & _ & _ & _ & Hsw).
  unfold winner_iff_finished, winner_set, is_finished, doc_get.
  destruct Hsw as [(-> & -> & _) | (-> & tm & ->)]; simpl; split; try done.
Qed.

Lemma hit_doc_winner_iff_finished tm nv s w e v (doc doc' : document) :
  winner_iff_finished doc ->
  doc_get doc "status" <> VStr "finished" ->
  hit_status_winner doc tm nv s w ->
  apply_push (Some ("events", e))
    (apply_set [(cups_field tm, v); ("status", s); ("winner", w)] doc) = Some doc' ->
  winner_iff_finished doc'.
Proof.
  intros Hinv Hnf Hsw Hpush.
  destruct (hit_doc_lookups _ _ _ _ _ _ _ Hpush) as (_ & Hs & Hw & _ & _).
  unfold winner_iff_finished, winner_set, is_finished, doc_get in *.
  rewrite Hs, Hw; simpl. unfold hit_status_winner in Hsw.
  destruct (nv =? 0); destruct Hsw as [-> ->].
  - split; [done | by destruct tm].
  - assert (Hwn : default VNone (doc !! "winner") = VNone).
    { destruct (default VNone (doc !! "winner")) eqn:E; try done;
        exfalso; apply Hnf, Hinv; done. }
    unfold doc_get_or, doc_get. rewrite Hwn.
    split; [done |]. intros Hfin. exfalso. apply Hnf.
    destruct (doc !! "status"); simpl in *; [done | discriminate].
Qed.

(** C5. A match has a winner exactly when it is finished: the match that
    [create_match] stores satisfies this, a successful hit and a reset
    preserve it on the match they write, and it holds of every match of
    every reachable collection. *)
Theorem winner_iff_finished_invariant :
  (forall payload new_id now (st st' : store) rid,
     create_match payload new_id now st = (Ok rid, st') ->
     exists doc : document, st' !! rid = Some doc /\ winner_iff_finished doc) /\
  (forall id oid (doc : document) p now (st st' : store) resp,
     ObjectId id = Some oid -> st !! oid = Some doc -> winner_iff_finished doc ->
     record_hit ObjectId int_of_str id p now st = (Ok resp, st') ->
     exists doc' : document, st' !! oid = Some doc' /\ winner_iff_finished doc') /\
  (forall id oid (doc : document) (st st' : store) r,
     ObjectId id = Some oid -> st !! oid = Some doc ->
     reset_match ObjectId int_of_str id st = (Ok r, st') ->
     exists doc' : document, st' !! oid = Some doc' /\ winner_iff_finished doc') /\
  (forall st : store, reachable ObjectId int_of_str st ->
     forall oid (doc : document), st !! oid = Some doc -> winner_iff_finished doc).
Proof.
  split; [| split; [| split]].
  - intros payload new_id now st st' rid Hc.
    destruct (decide (1 <= CreateMatchRequest.cups_per_side payload <= 20)) as [Hr|Hr].
    + rewrite create_match_valid in Hc by done. injection Hc as <- <-.
      eexists. split; [apply lookup_insert_eq |].
      apply doc_wf_winner_iff_finished. by apply created_doc_wf.
    + destruct (create_match_invalid payload new_id now st Hr) as (fs & Heq & _).
      rewrite Heq in Hc. discriminate.
  - intros id oid doc p now st st' resp Hid Hdoc Hinv Hhit.
    destruct (record_hit_cases id p now st)
      as [(e & He) | (oid0 & doc0 & cur & s & w & doc' & Hid0 & Hdoc0 & Hnf & _ & _ & Hsw & Hpush & Heq)].
    { rewrite He in Hhit. discriminate. }
    rewrite Heq in Hhit. injection Hhit as _ <-.
    assert (oid0 = oid) as -> by congruence.
    assert (doc0 = doc) as -> by congruence.
    exists doc'. split; [apply lookup_insert_eq |].
    by apply (hit_doc_winner_iff_finished _ _ _ _ _ _ _ _ Hinv Hnf Hsw Hpush).
  - intros id oid doc st st' r Hid Hdoc Hreset.
    destruct (reset_match_cases id st)
      as [(e & He) | (oid0 & doc0 & n & Hid0 & Hdoc0 & _ & Heq)].
    { rewrite He in Hreset. discriminate. }
    rewrite Heq in Hreset. injection Hreset as _ <-.
    assert (oid0 = oid) as -> by congruence.
    eexists. split; [apply lookup_insert_eq |].
    destruct (reset_doc_lookups n doc0) as (_ & _ & Hs & Hw & _).
    unfold winner_iff_finished, winner_set, is_finished, doc_get.
    rewrite Hs, Hw. simpl. split; [done | discriminate].
  - intros st Hreach oid doc Hdoc.
    apply doc_wf_winner_iff_finished. by apply (reachable_wf st Hreach oid).
Qed.

(** C6. In every reachable collection both remaining-cup fields of every
    match lie between 0 and [cups_per_side], and a successful hit leaves, for
    every match, neither remaining-cup field larger than it was. *)
Theorem cups_remaining_bounded_and_monotone :
  (forall st : store, reachable ObjectId int_of_str st ->
     forall oid (doc : document), st !! oid = Some doc ->
     exists n a b,
       doc !! "cups_per_side" = Some (VInt n) /\
       doc !! "cups_remaining_a" = Some (VInt a) /\
       doc !! "cups_remaining_b" = Some (VInt b) /\
       0 <= a <= n /\ 0 <= b <= n) /\
  (forall (st st' : store) id p now resp, reachable ObjectId int_of_str st ->
     record_hit ObjectId int_of_str id p now st = (Ok resp, st') ->
     forall oid (doc : document) a b, st !! oid = Some doc ->
     doc !! "cups_remaining_a" = Some (VInt a) ->
     doc !! "cups_remaining_b" = Some (VInt b) ->
     exists (doc' : document) a' b',
       st' !! oid = Some doc' /\
       doc' !! "cups_remaining_a" = Some (VInt a') /\
       doc' !! "cups_remaining_b" = Some (VInt b') /\
       a' <= a /\ b' <= b).
Proof.
  split.
  - intros st Hreach oid doc Hdoc.
    destruct (reachable_wf st Hreach oid doc Hdoc)
      as (n & a & b & l & Hn & Ha & Hb & _ & _ & Har & Hbr & _).
    exists n, a, b. done.
  - intros st st' id p now resp Hreach Hhit oid doc a b Hdoc Ha Hb.
    destruct (record_hit_cases id p now st)
      as [(e & He) | (oid0 & doc0 & cur & s & w & doc' & _ & Hdoc0 & Hnf & Hcur & Hc & Hsw & Hpush & Heq)].
    { rewrite He in Hhit. discriminate. }
    rewrite Heq in Hhit. injection Hhit as _ <-.
    destruct (decide (oid0 = oid)) as [->|Hne].
    + assert (doc0 = doc) as -> by congruence.
      destruct (hit_doc_wf _ _ _ _ _ _ _ _ (reachable_wf st Hreach oid doc Hdoc)
                  Hnf Hcur Hc Hsw Hpush) as (_ & Hmono).
      destruct (Hmono a b Ha Hb) as (a' & b' & Ha' & Hb' & Hle).
      exists doc', a', b'. rewrite lookup_insert_eq. done.
    + exists doc, a, b. rewrite lookup_insert_ne by done.
      repeat split; try done; lia.
Qed.

(** C7. Reset of an existing match, whatever its status: both remaining-cup
    fields become the match's [cups_per_side], status becomes ['ongoing'],
    winner becomes [None], the event log becomes empty, every other field of
    the match is kept and the match stays under its identifier. *)
Theorem reset_match_restores_start_values id oid (doc : document) (st : store) n :
  ObjectId id = Some oid -> st !! oid = Some doc ->
  doc !! "cups_per_side" = Some (VInt n) ->
  exists doc' : document,
    reset_match ObjectId int_of_str id st = (Ok true, <[oid := doc']> st) /\
    doc' !! "cups_remaining_a" = Some (VInt n) /\
    doc' !! "cups_remaining_b" = Some (VInt n) /\
    doc' !! "status" = Some (VStr "ongoing") /\
    doc' !! "winner" = Some VNone /\
    doc' !! "events" = Some (VList []) /\
    doc' !! "cups_per_side" = Some (VInt n) /\
    doc' !! "team_a" = doc !! "team_a" /\
    doc' !! "team_b" = doc !! "team_b" /\
    (forall k, k <> "cups_remaining_a" -> k <> "cups_remaining_b" ->
               k <> "status" -> k <> "winner" -> k <> "events" ->
               doc' !! k = doc !! k).
Proof.
  intros Hid Hdoc Hn.
  assert (Hint : py_int int_of_str (doc_get_or doc "cups_per_side" (VInt 10)) = Ok n).
  { unfold doc_get_or. by rewrite Hn. }
  eexists. split; [by apply reset_match_found |].
  destruct (reset_doc_lookups n doc) as (Ha & Hb & Hs & Hw & He & Hk).
  repeat split; try done.
  - by rewrite Hk.
  - by apply Hk.
  - by apply Hk.
Qed.

(** C8, as amended. [cups_per_side] defaults to 10 when the request omits
    it; a value between 1 and 20 is stored as given; any other value makes
    the construction of the [Match] raise a validation error naming
    [cups_per_side], and no match is stored. *)
Theorem create_match_validates_cups_per_side ta tb cps new_id now (st : store) :
  (cps = None ->
     exists doc : document,
       create_match (CreateMatchRequest.parse ta tb cps) new_id now st
         = (Ok new_id, <[new_id := doc]> st) /\
       doc !! "cups_per_side" = Some (VInt 10) /\
       doc !! "cups_remaining_a" = Some (VInt 10) /\
       doc !! "cups_remaining_b" = Some (VInt 10)) /\
  (forall c, cps = Some c -> 1 <= c <= 20 ->
     exists doc : document,
       create_match (CreateMatchRequest.parse ta tb cps) new_id now st
         = (Ok new_id, <[new_id := doc]> st) /\
       doc !! "cups_per_side" = Some (VInt c) /\
       doc !! "cups_remaining_a" = Some (VInt c) /\
       doc !! "cups_remaining_b" = Some (VInt c)) /\
  (forall c, cps = Some c -> ~ 1 <= c <= 20 ->
     exists fs,
       create_match (CreateMatchRequest.parse ta tb cps) new_id now st
         = (Raise (ValidationError "Match" fs), st) /\
       In "cups_per_side" fs).
Proof.
  split; [| split].
  - intros ->. eexists. split.
    + apply create_match_valid. simpl. lia.
    + simpl. by destruct (created_doc_lookups ta tb 10 now) as (_ & _ & ? & ? & ? & _).
  - intros c -> Hc. eexists. split.
    + by apply create_match_valid.
    + simpl. by destruct (created_doc_lookups ta tb c now) as (_ & _ & ? & ? & ? & _).
  - intros c -> Hc. by apply create_match_invalid.
Qed.

(** C9. The hit payload takes any integer as [cups]. When it is outside 1 to
    10, a hit on an existing match that is not finished raises the
    validation error of [HitEvent] before the write: the collection is
    exactly as before. *)
Theorem record_hit_rejects_cups_out_of_range :
  (forall tm sh c, HitPayload.cups (HitPayload.parse tm sh (Some c)) = c) /\
  (forall id oid (doc : document) p now (st : store),
     ObjectId id = Some oid -> st !! oid = Some doc ->
     conforms doc -> ~ is_finished doc ->
     ~ 1 <= HitPayload.cups p <= 10 ->
     record_hit ObjectId int_of_str id p now st = (Raise (ValidationError "HitEvent" ["cups"]), st)).
Proof.
  split; [done |].
  intros id oid doc p now st Hid Hdoc (_ & (a & Ha) & (b & Hb) & _) Hnf Hc.
  apply py_eq_str_false in Hnf.
  assert (Hint : exists cur,
             py_int int_of_str (doc_get_or doc (cups_field (HitPayload.team_ p)) (VInt 0)) = Ok cur).
  { unfold doc_get_or. destruct (HitPayload.team_ p); simpl;
      [rewrite Hb | rewrite Ha]; eauto. }
  destruct Hint as (cur & Hint).
  unfold record_hit, _to_obj_id, bind, find_one, lift, ret, raise.
  rewrite Hid; simpl. rewrite Hdoc, Hnf, Hint, (HitEvent_new_Raise _ _ _ _ Hc).
  by destruct (Z.max 0 (cur - HitPayload.cups p) =? 0).
Qed.

(** C10. In every reachable collection, a match whose status is ['ongoing']
    has at least one cup on each side; a match with a side at 0 is
    finished. *)
Theorem ongoing_match_has_cups_on_both_sides (st : store) oid (doc : document) :
  reachable ObjectId int_of_str st -> st !! oid = Some doc ->
  exists a b,
    doc !! "cups_remaining_a" = Some (VInt a) /\
    doc !! "cups_remaining_b" = Some (VInt b) /\
    (doc !! "status" = Some (VStr "ongoing") -> 1 <= a /\ 1 <= b) /\
    (a = 0 \/ b = 0 -> doc !! "status" = Some (VStr "finished")).
Proof.
  intros Hreach Hdoc.
  destruct (reachable_wf st Hreach oid doc Hdoc)
    as (n & a & b & l & _ & Ha & Hb & _ & _ & _ & _ & Hsw).
  exists a, b. split; [done |]. split; [done |].
  destruct Hsw as [(Hs & _ & Ha1 & Hb1) | (Hs & _)].
  - split; [done |]. intros [-> | ->]; lia.
  - split; [| done]. rewrite Hs. discriminate.
Qed.

End Proofs.

(** * The theorems at concrete matches *)

Lemma record_hit_decrements_opposing_side_witness :
  exists (doc' : document) cur,
    (record_hit hex24 digits_int red_blue_id
       (HitPayload.mk TeamA (Some "Ann") 3) 1 red_blue_store).2 !! red_blue_id
      = Some doc' /\
    py_int digits_int (doc_get_or red_blue_doc "cups_remaining_b" (VInt 0)) = Ok cur /\
    doc' !! "cups_remaining_b" = Some (VInt (Z.max 0 (cur - 3))) /\
    doc' !! "cups_remaining_a" = red_blue_doc !! "cups_remaining_a".
Proof.
  apply (record_hit_decrements_opposing_side hex24 digits_int
           red_blue_id red_blue_id red_blue_doc
           (HitPayload.mk TeamA (Some "Ann") 3) 1 red_blue_store
           (record_hit hex24 digits_int red_blue_id
              (HitPayload.mk TeamA (Some "Ann") 3) 1 red_blue_store).2
           (mkHitResponse true (VStr "ongoing") VNone));
    reflexivity.
Defined.

(** A hit of eleven cups on the fresh five-cup match: the call raises, and
    [cups_remaining_b] is still 5, not [max 0 (5 - 11) = 0]; the match is
    still ongoing. *)
Lemma hit_of_eleven_cups_is_rejected :
  red_blue_store !! red_blue_id = Some red_blue_doc /\
  red_blue_doc !! "status" = Some (VStr "ongoing") /\
  red_blue_doc !! "cups_remaining_b" = Some (VInt 5) /\
  Z.max 0 (5 - 11) = 0 /\
  record_hit hex24 digits_int red_blue_id (HitPayload.mk TeamA None 11) 1 red_blue_store
    = (Raise (ValidationError "HitEvent" ["cups"]), red_blue_store).
Proof. repeat split. Qed.

Lemma record_hit_clamps_at_zero_witness :
  exists cur resp (doc' : document),
    red_blue_doc !! "cups_remaining_b" = Some (VInt cur) /\
    record_hit hex24 digits_int red_blue_id (HitPayload.mk TeamA None 7) 1 red_blue_store
      = (Ok resp, <[red_blue_id := doc']> red_blue_store) /\
    doc' !! "cups_remaining_b" = Some (VInt (Z.max 0 (cur - 7))) /\
    0 <= Z.max 0 (cur - 7) /\
    (cur <= 7 ->
       doc' !! "cups_remaining_b" = Some (VInt 0) /\
       doc' !! "status" = Some (VStr "finished") /\
       resp_status resp = VStr "finished") /\
    (forall k, k <> "cups_remaining_b" -> k <> "status" ->
               k <> "winner" -> k <> "events" -> doc' !! k = red_blue_doc !! k).
Proof.
  apply (record_hit_clamps_at_zero hex24 digits_int red_blue_id red_blue_id
           red_blue_doc (HitPayload.mk TeamA None 7) 1 red_blue_store).
  - reflexivity.
  - reflexivity.
  - repeat split; eexists; reflexivity.
  - discriminate.
  - simpl. lia.
Defined.

Lemma record_hit_sets_status_and_winner_witness :
  exists (doc' : document) cur,
    red_blue_finished !! red_blue_id = Some doc' /\
    py_int digits_int (doc_get_or red_blue_doc "cups_remaining_b" (VInt 0)) = Ok cur /\
    doc' !! "cups_remaining_b" = Some (VInt (Z.max 0 (cur - 5))) /\
    (Z.max 0 (cur - 5) = 0 ->
       doc' !! "status" = Some (VStr "finished") /\
       doc' !! "winner" = Some (VStr "A") /\
       VStr "finished" = VStr "finished" /\
       VStr "A" = VStr "A") /\
    (Z.max 0 (cur - 5) <> 0 ->
       doc_get_or doc' "status" (VStr "ongoing")
         = doc_get_or red_blue_doc "status" (VStr "ongoing") /\
       doc_get doc' "winner" = doc_get red_blue_doc "winner" /\
       (is_Some (red_blue_doc !! "status") -> doc' !! "status" = red_blue_doc !! "status") /\
       (is_Some (red_blue_doc !! "winner") -> doc' !! "winner" = red_blue_doc !! "winner") /\
       VStr "finished" = doc_get_or red_blue_doc "status" (VStr "ongoing") /\
       VStr "A" = doc_get red_blue_doc "winner").
Proof.
  apply (record_hit_sets_status_and_winner hex24 digits_int red_blue_id red_blue_id
           red_blue_doc (HitPayload.parse TeamA (Some "Ann") (Some 5)) 1
           red_blue_store red_blue_finished
           (mkHitResponse true (VStr "finished") (VStr "A")));
    reflexivity.
Defined.

Lemma record_hit_on_finished_match_fails_witness :
  record_hit hex24 digits_int red_blue_id (HitPayload.mk TeamB None 1) 2 red_blue_finished
    = (Raise (HTTPException 400 "Match already finished"), red_blue_finished).
Proof.
  eapply (record_hit_on_finished_match_fails hex24 digits_int red_blue_id red_blue_id);
    reflexivity.
Defined.

Lemma red_blue_store_reachable : reachable hex24 digits_int red_blue_store.
Proof. apply reach_create; [apply reach_empty | reflexivity]. Qed.

Lemma winner_iff_finished_invariant_witness :
  (exists doc : document,
     red_blue_store !! red_blue_id = Some doc /\ winner_iff_finished doc) /\
  (exists doc' : document,
     red_blue_finished !! red_blue_id = Some doc' /\ winner_iff_finished doc') /\
  (exists doc' : document,
     (reset_match hex24 digits_int red_blue_id red_blue_finished).2 !! red_blue_id
       = Some doc' /\ winner_iff_finished doc') /\
  winner_iff_finished red_blue_doc.
Proof.
  pose proof (winner_iff_finished_invariant hex24 digits_int)
    as (Hcreate & Hhit & Hreset & Hreach).
  split; [| split; [| split]].
  - apply (Hcreate (CreateMatchRequest.parse "Red" "Blue" (Some 5)) red_blue_id 0 ∅).
    reflexivity.
  - apply (Hhit red_blue_id red_blue_id red_blue_doc
             (HitPayload.parse TeamA (Some "Ann") (Some 5)) 1 red_blue_store
             red_blue_finished (mkHitResponse true (VStr "finished") (VStr "A")));
      try reflexivity.
    split; [intros H; exfalso; apply H; reflexivity | discriminate].
  - eapply (Hreset red_blue_id red_blue_id _ red_blue_finished _ true); reflexivity.
  - apply (Hreach red_blue_store red_blue_store_reachable red_blue_id). reflexivity.
Defined.

Lemma cups_remaining_bounded_and_monotone_witness :
  (exists n a b,
     red_blue_doc !! "cups_per_side" = Some (VInt n) /\
     red_blue_doc !! "cups_remaining_a" = Some (VInt a) /\
     red_blue_doc !! "cups_remaining_b" = Some (VInt b) /\
     0 <= a <= n /\ 0 <= b <= n) /\
  (exists (doc' : document) a' b',
     (record_hit hex24 digits_int red_blue_id
        (HitPayload.mk TeamB None 2) 1 red_blue_store).2 !! red_blue_id = Some doc' /\
     doc' !! "cups_remaining_a" = Some (VInt a') /\
     doc' !! "cups_remaining_b" = Some (VInt b') /\
     a' <= 5 /\ b' <= 5).
Proof.
  pose proof (cups_remaining_bounded_and_monotone hex24 digits_int) as (Hbound & Hmono).
  split.
  - apply (Hbound red_blue_store red_blue_store_reachable red_blue_id). reflexivity.
  - apply (Hmono red_blue_store _ red_blue_id (HitPayload.mk TeamB None 2) 1
             (mkHitResponse true (VStr "ongoing") VNone) red_blue_store_reachable
             eq_refl red_blue_id red_blue_doc 5 5);
      reflexivity.
Defined.

Lemma reset_match_restores_start_values_witness :
  exists doc' : document,
    reset_match hex24 digits_int red_blue_id red_blue_finished
      = (Ok true, <[red_blue_id := doc']> red_blue_finished) /\
    doc' !! "cups_remaining_a" = Some (VInt 5) /\
    doc' !! "cups_remaining_b" = Some (VInt 5) /\
    doc' !! "status" = Some (VStr "ongoing") /\
    doc' !! "winner" = Some VNone /\
    doc' !! "events" = Some (VList []) /\
    doc' !! "cups_per_side" = Some (VInt 5) /\
    doc' !! "team_a" = Some (VStr "Red") /\
    doc' !! "team_b" = Some (VStr "Blue").
Proof.
  edestruct (reset_match_restores_start_values hex24 digits_int red_blue_id red_blue_id
               _ red_blue_finished 5 eq_refl eq_refl eq_refl)
    as (doc' & Heq & Ha & Hb & Hs & Hw & He & Hn & Hta & Htb & _).
  exists doc'. repeat split; assumption.
Defined.

(** A request for 25 cups per side: the call raises and stores nothing; no
    match with 20 cups is created. *)
Lemma create_match_with_25_cups_is_rejected :
  create_match (CreateMatchRequest.parse "Red" "Blue" (Some 25)) red_blue_id 0 ∅
    = (Raise (ValidationError "Match" ["cups_per_side"]), ∅).
Proof. reflexivity. Qed.

Lemma create_match_validates_cups_per_side_witness :
  (exists doc : document,
     create_match (CreateMatchRequest.parse "Red" "Blue" None) red_blue_id 0 ∅
       = (Ok red_blue_id, <[red_blue_id := doc]> ∅) /\
     doc !! "cups_per_side" = Some (VInt 10) /\
     doc !! "cups_remaining_a" = Some (VInt 10) /\
     doc !! "cups_remaining_b" = Some (VInt 10)) /\
  (exists doc : document,
     create_match (CreateMatchRequest.parse "Red" "Blue" (Some 5)) red_blue_id 0 ∅
       = (Ok red_blue_id, <[red_blue_id := doc]> ∅) /\
     doc !! "cups_per_side" = Some (VInt 5) /\
     doc !! "cups_remaining_a" = Some (VInt 5) /\
     doc !! "cups_remaining_b" = Some (VInt 5)) /\
  (exists fs,
     create_match (CreateMatchRequest.parse "Red" "Blue" (Some 0)) red_blue_id 0 ∅
       = (Raise (ValidationError "Match" fs), ∅) /\
     In "cups_per_side" fs).
Proof.
  split; [| split].
  - apply (proj1 (create_match_validates_cups_per_side
                    "Red" "Blue" None red_blue_id 0 ∅)).
    reflexivity.
  - apply (proj1 (proj2 (create_match_validates_cups_per_side
                           "Red" "Blue" (Some 5) red_blue_id 0 ∅)) 5);
      [reflexivity | lia].
  - apply (proj2 (proj2 (create_match_validates_cups_per_side
                           "Red" "Blue" (Some 0) red_blue_id 0 ∅)) 0);
      [reflexivity | lia].
Defined.

Lemma record_hit_rejects_cups_out_of_range_witness :
  record_hit hex24 digits_int red_blue_id (HitPayload.parse TeamA None (Some 0)) 1
    red_blue_store
    = (Raise (ValidationError "HitEvent" ["cups"]), red_blue_store).
Proof.
  apply (proj2 (record_hit_rejects_cups_out_of_range hex24 digits_int)
           red_blue_id red_blue_id red_blue_doc).
  - reflexivity.
  - reflexivity.
  - repeat split; eexists; reflexivity.
  - discriminate.
  - simpl. lia.
Defined.

Lemma ongoing_match_has_cups_on_both_sides_witness :
  exists a b,
    red_blue_doc !! "cups_remaining_a" = Some (VInt a) /\
    red_blue_doc !! "cups_remaining_b" = Some (VInt b) /\
    (red_blue_doc !! "status" = Some (VStr "ongoing") -> 1 <= a /\ 1 <= b) /\
    (a = 0 \/ b = 0 -> red_blue_doc !! "status" = Some (VStr "finished")).
Proof.
  apply (ongoing_match_has_cups_on_both_sides hex24 digits_int
           red_blue_store red_blue_id red_blue_doc).
  - apply reach_create; [apply reach_empty | reflexivity].
  - reflexivity.
Defined.

(** * Further properties of the handlers *)

Section MoreProofs.

Variable ObjectId : string -> option string.
Variable int_of_str : string -> option Z.

#[local] Arguments apply_push : simpl never.
#[local] Arguments apply_set : simpl never.
#[local] Arguments update_one : simpl never.

Lemma cups_hit_by_snoc tm l e :
  cups_hit_by tm (l ++ [e]) = cups_hit_by tm l + event_cups tm e.
Proof.
  unfold cups_hit_by. induction l as [|x l IH]; simpl; [lia |].
  rewrite IH. lia.
Qed.

Lemma event_cups_own tm sh c t :
  event_cups tm (HitEvent.model_dump (HitEvent.mk tm sh c t)) = c.
Proof. by destruct tm. Qed.

Lemma event_cups_other tm tm' sh c t :
  tm <> tm' ->
  event_cups tm' (HitEvent.model_dump (HitEvent.mk tm sh c t)) = 0.
Proof. by destruct tm, tm'. Qed.

Lemma team_code_inj tm tm' : team_code tm = team_code tm' -> tm = tm'.
Proof. by destruct tm, tm'. Qed.

Lemma get_match_found id oid (doc : document) (st : store) :
  ObjectId id = Some oid -> st !! oid = Some doc ->
  get_match ObjectId id st = (Ok (<["id" := VStr oid]> doc), st).
Proof.
  intros Hid Hdoc. unfold get_match, _to_obj_id, bind, find_one, ret.
  rewrite Hid; simpl. by rewrite Hdoc.
Qed.

(** ** Errors *)

(** X1. An identifier that [ObjectId] refuses makes [get_match],
    [record_hit] and [reset_match] raise the HTTP 400 error
    ["Invalid ID format"], whatever the collection holds, and the collection
    is as before. *)
Theorem invalid_id_is_rejected id p now (st : store) :
  ObjectId id = None ->
  get_match ObjectId id st
    = (Raise (HTTPException 400 "Invalid ID format"), st) /\
  record_hit ObjectId int_of_str id p now st
    = (Raise (HTTPException 400 "Invalid ID format"), st) /\
  reset_match ObjectId int_of_str id st
    = (Raise (HTTPException 400 "Invalid ID format"), st).
Proof.
  intros Hid.
  unfold get_match, record_hit, reset_match, _to_obj_id, bind, raise.
  by rewrite Hid.
Qed.

(** X2. A well-formed identifier under which no match is stored makes
    [get_match], [record_hit] and [reset_match] raise the HTTP 404 error
    ["Match not found"]; nothing is created. *)
Theorem unknown_match_is_not_found id oid p now (st : store) :
  ObjectId id = Some oid -> st !! oid = None ->
  get_match ObjectId id st
    = (Raise (HTTPException 404 "Match not found"), st) /\
  record_hit ObjectId int_of_str id p now st
    = (Raise (HTTPException 404 "Match not found"), st) /\
  reset_match ObjectId int_of_str id st
    = (Raise (HTTPException 404 "Match not found"), st).
Proof.
  intros Hid Hdoc.
  unfold get_match, record_hit, reset_match, _to_obj_id, bind, find_one, ret, raise.
  rewrite Hid; simpl. by rewrite Hdoc.
Qed.

(** X3. A request that raises has written nothing: whenever
    [create_match], [record_hit] or [reset_match] ends in an exception, the
    collection is the one it started from; and [get_match] never writes. *)
Theorem failed_request_writes_nothing :
  (forall payload new_id now (st st' : store) e,
     create_match payload new_id now st = (Raise e, st') -> st' = st) /\
  (forall id p now (st st' : store) e,
     record_hit ObjectId int_of_str id p now st = (Raise e, st') -> st' = st) /\
  (forall id (st st' : store) e,
     reset_match ObjectId int_of_str id st = (Raise e, st') -> st' = st) /\
  (forall id (st : store), (get_match ObjectId id st).2 = st).
Proof.
  split; [| split; [| split]].
  - intros payload new_id now st st' e H.
    destruct (decide (1 <= CreateMatchRequest.cups_per_side payload <= 20)) as [Hr|Hr].
    + rewrite create_match_valid in H by done. discriminate.
    + destruct (create_match_invalid payload new_id now st Hr) as (fs & Heq & _).
      rewrite Heq in H. congruence.
  - intros id p now st st' e H.
    destruct (record_hit_cases ObjectId int_of_str id p now st)
      as [(e0 & He) | (oid & doc & cur & s & w & doc' & _ & _ & _ & _ & _ & _ & _ & Heq)].
    + rewrite He in H. congruence.
    + rewrite Heq in H. discriminate.
  - intros id st st' e H.
    destruct (reset_match_cases ObjectId int_of_str id st)
      as [(e0 & He) | (oid & doc & n & _ & _ & _ & Heq)].
    + rewrite He in H. congruence.
    + rewrite Heq in H. discriminate.
  - intros id st. unfold get_match, _to_obj_id, bind, find_one, ret, raise.
    destruct (ObjectId id) as [oid|]; simpl; [| done].
    by destruct (st !! oid).
Qed.

(** ** What a write leaves alone *)

(** X4. A write touches one match: [create_match] leaves every match under
    another identifier as it was, [record_hit] and [reset_match] leave every
    match but the addressed one as it was, and neither of the two adds or
    removes a match. *)
Theorem writes_touch_one_match :
  (forall payload new_id now (st : store) oid,
     oid <> new_id ->
     (create_match payload new_id now st).2 !! oid = st !! oid) /\
  (forall id p now (st : store) oid,
     ObjectId id <> Some oid ->
     (record_hit ObjectId int_of_str id p now st).2 !! oid = st !! oid) /\
  (forall id (st : store) oid,
     ObjectId id <> Some oid ->
     (reset_match ObjectId int_of_str id st).2 !! oid = st !! oid) /\
  (forall id p now (st : store),
     dom (record_hit ObjectId int_of_str id p now st).2 = dom st) /\
  (forall id (st : store),
     dom (reset_match ObjectId int_of_str id st).2 = dom st).
Proof.
  assert (Hdom : forall (st : store) oid (doc doc' : document),
             st !! oid = Some doc -> dom (<[oid := doc']> st) = dom st).
  { intros st oid doc doc' Hdoc. rewrite dom_insert_L.
    apply subseteq_union_1_L, singleton_subseteq_l, elem_of_dom. eauto. }
  split; [| split; [| split; [| split]]].
  - intros payload new_id now st oid Hne.
    destruct (decide (1 <= CreateMatchRequest.cups_per_side payload <= 20)) as [Hr|Hr].
    + rewrite create_match_valid by done. simpl. by rewrite lookup_insert_ne.
    + by destruct (create_match_invalid payload new_id now st Hr) as (fs & -> & _).
  - intros id p now st oid Hne.
    destruct (record_hit_cases ObjectId int_of_str id p now st)
      as [(e0 & ->) | (oid0 & doc & cur & s & w & doc' & Hid & _ & _ & _ & _ & _ & _ & ->)];
      [done |]. simpl. rewrite lookup_insert_ne; [done | congruence].
  - intros id st oid Hne.
    destruct (reset_match_cases ObjectId int_of_str id st)
      as [(e0 & ->) | (oid0 & doc & n & Hid & _ & _ & ->)];
      [done |]. simpl. rewrite lookup_insert_ne; [done | congruence].
  - intros id p now st.
    destruct (record_hit_cases ObjectId int_of_str id p now st)
      as [(e0 & ->) | (oid0 & doc & cur & s & w & doc' & _ & Hdoc & _ & _ & _ & _ & _ & ->)];
      [done |]. simpl. by apply (Hdom st oid0 doc).
  - intros id st.
    destruct (reset_match_cases ObjectId int_of_str id st)
      as [(e0 & ->) | (oid0 & doc & n & _ & Hdoc & _ & ->)];
      [done |]. simpl. by apply (Hdom st oid0 doc).
Qed.

(** X5. No call of [record_hit] or [reset_match], successful or not,
    changes a field of a match other than [cups_remaining_a],
    [cups_remaining_b], [status], [winner] and [events]: team names,
    [cups_per_side] and [created_at] are never rewritten. *)
Theorem other_fields_are_never_written (st : store) oid (doc : document) :
  st !! oid = Some doc ->
  (forall id p now,
     exists doc' : document,
       (record_hit ObjectId int_of_str id p now st).2 !! oid = Some doc' /\
       forall k, k <> "cups_remaining_a" -> k <> "cups_remaining_b" ->
                 k <> "status" -> k <> "winner" -> k <> "events" ->
                 doc' !! k = doc !! k) /\
  (forall id,
     exists doc' : document,
       (reset_match ObjectId int_of_str id st).2 !! oid = Some doc' /\
       forall k, k <> "cups_remaining_a" -> k <> "cups_remaining_b" ->
                 k <> "status" -> k <> "winner" -> k <> "events" ->
                 doc' !! k = doc !! k).
Proof.
  intros Hdoc. split.
  - intros id p now.
    destruct (record_hit_cases ObjectId int_of_str id p now st)
      as [(e0 & ->) | (oid0 & doc0 & cur & s & w & doc' & _ & Hdoc0 & _ & _ & _ & _ & Hpush & ->)];
      [by exists doc |]. simpl.
    destruct (decide (oid0 = oid)) as [->|Hne].
    + assert (doc0 = doc) as -> by congruence.
      exists doc'. rewrite lookup_insert_eq. split; [done |].
      destruct (hit_doc_lookups _ _ _ _ _ _ _ Hpush) as (_ & _ & _ & _ & Hk).
      intros k ? ? ? ? ?. apply Hk; try done.
      by destruct (HitPayload.team_ p).
    + exists doc. by rewrite lookup_insert_ne.
  - intros id.
    destruct (reset_match_cases ObjectId int_of_str id st)
      as [(e0 & ->) | (oid0 & doc0 & n & _ & Hdoc0 & _ & ->)];
      [by exists doc |]. simpl.
    destruct (decide (oid0 = oid)) as [->|Hne].
    + assert (doc0 = doc) as -> by congruence.
      eexists. rewrite lookup_insert_eq. split; [done |].
      by destruct (reset_doc_lookups n doc) as (_ & _ & _ & _ & _ & Hk).
    + exists doc. by rewrite lookup_insert_ne.
Qed.

(** ** Reading a match back *)

(** X6. After a match is created under an identifier that [ObjectId] reads
    back, [get_match] returns it: the team names and [cups_per_side] of the
    request, both remaining-cup fields equal to [cups_per_side], status
    ['ongoing'], no winner, an empty event log, the creation time, and the
    identifier under ["id"]. *)
Theorem get_match_after_create_match payload new_id now (st : store) :
  ObjectId new_id = Some new_id ->
  1 <= CreateMatchRequest.cups_per_side payload <= 20 ->
  exists (st' : store) (d : document),
    create_match payload new_id now st = (Ok new_id, st') /\
    get_match ObjectId new_id st' = (Ok d, st') /\
    d !! "id" = Some (VStr new_id) /\
    d !! "team_a" = Some (VStr (CreateMatchRequest.team_a payload)) /\
    d !! "team_b" = Some (VStr (CreateMatchRequest.team_b payload)) /\
    d !! "cups_per_side" = Some (VInt (CreateMatchRequest.cups_per_side payload)) /\
    d !! "cups_remaining_a" = Some (VInt (CreateMatchRequest.cups_per_side payload)) /\
    d !! "cups_remaining_b" = Some (VInt (CreateMatchRequest.cups_per_side payload)) /\
    d !! "status" = Some (VStr "ongoing") /\
    d !! "winner" = Some VNone /\
    d !! "events" = Some (VList []) /\
    d !! "created_at" = Some (VTime now).
Proof.
  intros Hid Hc. eexists _, _.
  split; [by apply create_match_valid |].
  split; [apply get_match_found; [done | apply lookup_insert_eq] |].
  destruct (created_doc_lookups (CreateMatchRequest.team_a payload)
              (CreateMatchRequest.team_b payload)
              (CreateMatchRequest.cups_per_side payload) now)
    as (Hta & Htb & Hn & Ha & Hb & Hs & Hw & He & Hcr).
  split; [apply lookup_insert_eq |].
  rewrite !(lookup_insert_ne _ "id") by done.
  repeat split; done.
Qed.

(** X7. After a recorded hit, [get_match] returns the match as written: its
    status and winner are those of the response of the hit, the targeted
    field holds the clamped value, the hitting team's own field is the old
    one, and the last event of the log is the hit, with the team, shooter
    and cups of the payload and the time of the hit. *)
Theorem get_match_after_record_hit
    id oid (doc : document) p now (st st' : store) resp :
  ObjectId id = Some oid -> st !! oid = Some doc ->
  record_hit ObjectId int_of_str id p now st = (Ok resp, st') ->
  exists (d : document) cur l,
    get_match ObjectId id st' = (Ok d, st') /\
    resp_ok resp = true /\
    d !! "status" = Some (resp_status resp) /\
    d !! "winner" = Some (resp_winner resp) /\
    py_int int_of_str (doc_get_or doc (cups_field (HitPayload.team_ p)) (VInt 0))
      = Ok cur /\
    d !! cups_field (HitPayload.team_ p)
      = Some (VInt (Z.max 0 (cur - HitPayload.cups p))) /\
    d !! own_field (HitPayload.team_ p) = doc !! own_field (HitPayload.team_ p) /\
    d !! "events"
      = Some (VList (l ++ [VDict [("team", VStr (team_code (HitPayload.team_ p)));
                                  ("shooter", opt_str (HitPayload.shooter p));
                                  ("cups", VInt (HitPayload.cups p));
                                  ("timestamp", VTime now)]])) /\
    (doc !! "events" = Some (VList l) \/ doc !! "events" = None /\ l = []).
Proof.
  intros Hid Hdoc Hhit.
  destruct (record_hit_cases ObjectId int_of_str id p now st)
    as [(e & He) | (oid0 & doc0 & cur & s & w & doc' & Hid0 & Hdoc0 & _ & Hcur & _ & _ & Hpush & Heq)].
  { rewrite He in Hhit. discriminate. }
  rewrite Heq in Hhit. injection Hhit as <- <-.
  assert (oid0 = oid) as -> by congruence.
  assert (doc0 = doc) as -> by congruence.
  destruct (hit_doc_lookups _ _ _ _ _ _ _ Hpush) as (Hf & Hs & Hw & (l & Hl & Hold) & Hk).
  assert (Hfid : cups_field (HitPayload.team_ p) <> "id"
                 /\ own_field (HitPayload.team_ p) <> "id")
    by (by destruct (HitPayload.team_ p)).
  destruct Hfid as [Hf1 Hf2].
  exists (<["id" := VStr oid]> doc'), cur, l.
  split; [apply get_match_found; [done | apply lookup_insert_eq] |].
  rewrite !(lookup_insert_ne _ "id") by done.
  repeat split; try done.
  apply Hk; by destruct (HitPayload.team_ p).
Qed.

(** ** Reset composed with itself and with a hit *)

Lemma reset_sets_twice n (doc : document) :
  apply_set [("cups_remaining_a", VInt n); ("cups_remaining_b", VInt n);
             ("status", VStr "ongoing"); ("winner", VNone); ("events", VList [])]
    (apply_set [("cups_remaining_a", VInt n); ("cups_remaining_b", VInt n);
                ("status", VStr "ongoing"); ("winner", VNone);
                ("events", VList [])] doc)
  = apply_set [("cups_remaining_a", VInt n); ("cups_remaining_b", VInt n);
               ("status", VStr "ongoing"); ("winner", VNone);
               ("events", VList [])] doc.
Proof.
  destruct (reset_doc_lookups n doc) as (A & B & S & W & E & K).
  match goal with |- apply_set ?L ?d1 = _ =>
    destruct (reset_doc_lookups n d1) as (A1 & B1 & S1 & W1 & E1 & K1) end.
  apply map_eq. intros k.
  destruct (decide (k = "cups_remaining_a")) as [->|]; [by rewrite A1, A |].
  destruct (decide (k = "cups_remaining_b")) as [->|]; [by rewrite B1, B |].
  destruct (decide (k = "status")) as [->|]; [by rewrite S1, S |].
  destruct (decide (k = "winner")) as [->|]; [by rewrite W1, W |].
  destruct (decide (k = "events")) as [->|]; [by rewrite E1, E |].
  by apply K1.
Qed.

(** X8. Reset is idempotent: after a reset that succeeded, a second reset of
    the same match succeeds and leaves the collection exactly as the first
    one left it. *)
Theorem reset_match_twice id (st st' : store) r :
  reset_match ObjectId int_of_str id st = (Ok r, st') ->
  reset_match ObjectId int_of_str id st' = (Ok true, st').
Proof.
  intros H.
  destruct (reset_match_cases ObjectId int_of_str id st)
    as [(e0 & He) | (oid & doc & n & Hid & Hdoc & Hn & Heq)].
  { rewrite He in H. discriminate. }
  rewrite Heq in H. injection H as _ <-.
  destruct (reset_doc_lookups n doc) as (_ & _ & _ & _ & _ & K).
  rewrite (reset_match_found ObjectId int_of_str id oid _ _ n Hid (lookup_insert_eq _ _ _)).
  - by rewrite reset_sets_twice, insert_insert_eq.
  - unfold doc_get_or in *. by rewrite K.
Qed.

(** X9. Reset reopens a match: after the reset of a match with
    [cups_per_side = n], whatever its status was, a hit of 1 to 10 cups is
    recorded; the targeted field becomes [max 0 (n - cups)], the hitting
    team's own field is [n], the log holds that one event, and the match is
    finished, with the hitting team as winner, exactly when [n <= cups]. *)
Theorem record_hit_after_reset_match id oid (doc : document) p now (st : store) n :
  ObjectId id = Some oid -> st !! oid = Some doc ->
  doc !! "cups_per_side" = Some (VInt n) ->
  1 <= HitPayload.cups p <= 10 ->
  exists resp (doc' : document),
    record_hit ObjectId int_of_str id p now
      (reset_match ObjectId int_of_str id st).2
      = (Ok resp, <[oid := doc']> (reset_match ObjectId int_of_str id st).2) /\
    doc' !! cups_field (HitPayload.team_ p)
      = Some (VInt (Z.max 0 (n - HitPayload.cups p))) /\
    doc' !! own_field (HitPayload.team_ p) = Some (VInt n) /\
    doc' !! "events"
      = Some (VList [HitEvent.model_dump
                       (HitEvent.mk (HitPayload.team_ p) (HitPayload.shooter p)
                                    (HitPayload.cups p) now)]) /\
    (n <= HitPayload.cups p ->
       doc' !! "status" = Some (VStr "finished") /\
       doc' !! "winner" = Some (VStr (team_code (HitPayload.team_ p)))) /\
    (HitPayload.cups p < n ->
       doc' !! "status" = Some (VStr "ongoing") /\
       doc' !! "winner" = Some VNone).
Proof.
  intros Hid Hdoc Hn Hc.
  assert (Hint : py_int int_of_str (doc_get_or doc "cups_per_side" (VInt 10)) = Ok n).
  { unfold doc_get_or. by rewrite Hn. }
  rewrite (reset_match_found ObjectId int_of_str id oid doc st n Hid Hdoc Hint). simpl.
  destruct (reset_doc_lookups n doc) as (A & B & S & W & E & K).
  set (doc1 := apply_set _ doc) in *.
  assert (Hnf : doc_get doc1 "status" <> VStr "finished").
  { unfold doc_get. rewrite S. discriminate. }
  assert (Hcur : py_int int_of_str
                   (doc_get_or doc1 (cups_field (HitPayload.team_ p)) (VInt 0)) = Ok n).
  { unfold doc_get_or. destruct (HitPayload.team_ p); simpl; [by rewrite B | by rewrite A]. }
  destruct (record_hit_found ObjectId int_of_str id oid doc1 p now
              (<[oid := doc1]> st) n Hid (lookup_insert_eq _ _ _) Hnf Hcur Hc)
    as (s & w & Hsw & Heq).
  rewrite Heq. clear Heq.
  match goal with |- context [apply_push ?x ?y] =>
    destruct (apply_push x y) as [doc'|] eqn:Hpush end.
  2: { exfalso. revert Hpush. unfold apply_push, apply_set; simpl.
       assert (cups_field (HitPayload.team_ p) <> "events")
         by (by destruct (HitPayload.team_ p)).
       rewrite !lookup_insert_ne by done. fold doc1. by rewrite E. }
  destruct (hit_doc_lookups _ _ _ _ _ _ _ Hpush) as (Hf & Hs & Hw & (l & Hl & Hold) & Hk).
  assert (l = []) as ->.
  { destruct Hold as [Hold | [_ ->]]; [| done]. congruence. }
  exists (mkHitResponse true s w), doc'.
  split; [done |]. split; [done |].
  split. { rewrite Hk by (by destruct (HitPayload.team_ p)).
           by destruct (HitPayload.team_ p). }
  split; [done |].
  unfold hit_status_winner, doc_get_or, doc_get in Hsw. rewrite S, W in Hsw.
  split; intros Hcmp.
  - assert (Z.max 0 (n - HitPayload.cups p) = 0) as E0 by lia.
    rewrite E0 in Hsw. simpl in Hsw. by destruct Hsw as [-> ->].
  - assert ((Z.max 0 (n - HitPayload.cups p) =? 0) = false) as E0
      by (apply Z.eqb_neq; lia).
    rewrite E0 in Hsw. simpl in Hsw. by destruct Hsw as [-> ->].
Qed.

(** ** Documents that miss a field *)

(** X10. A match whose targeted remaining-cup field is missing counts as
    having 0 cups there: the first hit of 1 to 10 cups is recorded, writes 0
    to the field and finishes the match with the hitting team as winner. *)
Theorem record_hit_on_missing_cups_field id oid (doc : document) p now (st : store) :
  ObjectId id = Some oid -> st !! oid = Some doc ->
  ~ is_finished doc ->
  doc !! cups_field (HitPayload.team_ p) = None ->
  (doc !! "events" = None \/ exists l, doc !! "events" = Some (VList l)) ->
  1 <= HitPayload.cups p <= 10 ->
  exists doc' : document,
    record_hit ObjectId int_of_str id p now st
      = (Ok (mkHitResponse true (VStr "finished")
               (VStr (team_code (HitPayload.team_ p)))),
         <[oid := doc']> st) /\
    doc' !! cups_field (HitPayload.team_ p) = Some (VInt 0) /\
    doc' !! "status" = Some (VStr "finished") /\
    doc' !! "winner" = Some (VStr (team_code (HitPayload.team_ p))).
Proof.
  intros Hid Hdoc Hnf Hmiss Hev Hc.
  assert (Hcur : py_int int_of_str
                   (doc_get_or doc (cups_field (HitPayload.team_ p)) (VInt 0)) = Ok 0).
  { unfold doc_get_or. by rewrite Hmiss. }
  destruct (record_hit_found ObjectId int_of_str id oid doc p now st 0
              Hid Hdoc Hnf Hcur Hc) as (s & w & Hsw & Heq).
  assert (Z.max 0 (0 - HitPayload.cups p) = 0) as E0 by lia.
  rewrite E0 in *. simpl in Hsw. destruct Hsw as [-> ->].
  rewrite Heq. clear Heq.
  match goal with |- context [apply_push ?x ?y] =>
    destruct (apply_push x y) as [doc'|] eqn:Hpush end.
  2: { exfalso. revert Hpush. unfold apply_push, apply_set; simpl.
       assert (cups_field (HitPayload.team_ p) <> "events")
         by (by destruct (HitPayload.team_ p)).
       rewrite !lookup_insert_ne by done.
       by destruct Hev as [-> | (l & ->)]. }
  destruct (hit_doc_lookups _ _ _ _ _ _ _ Hpush) as (Hf & Hs & Hw & _ & _).
  by exists doc'.
Qed.

(** X11. A match whose [cups_per_side] is missing is reset to 10 cups on
    each side; the reset does not create the missing field. *)
Theorem reset_match_on_missing_cups_per_side id oid (doc : document) (st : store) :
  ObjectId id = Some oid -> st !! oid = Some doc ->
  doc !! "cups_per_side" = None ->
  exists doc' : document,
    reset_match ObjectId int_of_str id st = (Ok true, <[oid := doc']> st) /\
    doc' !! "cups_remaining_a" = Some (VInt 10) /\
    doc' !! "cups_remaining_b" = Some (VInt 10) /\
    doc' !! "cups_per_side" = None.
Proof.
  intros Hid Hdoc Hmiss.
  assert (Hint : py_int int_of_str (doc_get_or doc "cups_per_side" (VInt 10)) = Ok 10).
  { unfold doc_get_or. by rewrite Hmiss. }
  eexists. split; [by apply reset_match_found |].
  destruct (reset_doc_lookups 10 doc) as (A & B & _ & _ & _ & K).
  split; [done |]. split; [done |]. by rewrite K.
Qed.

(** ** The event log in reachable collections *)

Lemma created_doc_log_ok ta tb c now :
  1 <= c <= 20 ->
  doc_log_ok (<["created_at" := VTime now]>
                (Match.model_dump (Match.mk ta tb c c c ongoing None []))).
Proof.
  intros Hc.
  destruct (created_doc_lookups ta tb c now) as (_ & _ & Hn & Ha & Hb & Hs & Hw & He & _).
  exists c, c, c, []. simpl.
  split_and!; try done; try lia.
  all: intros tm Htm; rewrite Hw in Htm; discriminate.
Qed.

Lemma reset_doc_log_ok n (doc : document) :
  doc_wf doc ->
  py_int int_of_str (doc_get_or doc "cups_per_side" (VInt 10)) = Ok n ->
  doc_log_ok (apply_set [("cups_remaining_a", VInt n); ("cups_remaining_b", VInt n);
                         ("status", VStr "ongoing"); ("winner", VNone);
                         ("events", VList [])] doc).
Proof.
  intros (n0 & a & b & l & Hn & _ & _ & _ & Hnr & _) Hint.
  unfold doc_get_or in Hint. rewrite Hn in Hint. simpl in Hint.
  injection Hint as <-.
  destruct (reset_doc_lookups n0 doc) as (Ha' & Hb' & Hs' & Hw' & He' & Hk).
  exists n0, n0, n0, []. simpl.
  split; [by rewrite Hk |].
  split_and!; try done; try lia.
  all: intros tm Htm; rewrite Hw' in Htm; discriminate.
Qed.

Lemma hit_doc_log_ok tm sh c now cur s w (doc doc' : document) :
  doc_wf doc -> doc_log_ok doc ->
  doc_get doc "status" <> VStr "finished" ->
  py_int int_of_str (doc_get_or doc (cups_field tm) (VInt 0)) = Ok cur ->
  1 <= c <= 10 ->
  hit_status_winner doc tm (Z.max 0 (cur - c)) s w ->
  apply_push (Some ("events", HitEvent.model_dump (HitEvent.mk tm sh c now)))
    (apply_set [(cups_field tm, VInt (Z.max 0 (cur - c)));
                ("status", s); ("winner", w)] doc) = Some doc' ->
  doc_log_ok doc'.
Proof.
  intros (n & a & b & l & Hn & Ha & Hb & Hl & Hnr & Har & Hbr & Hsw)
         (n' & a' & b' & l' & Hn' & Ha' & Hb' & Hl' & Hall & Hsa & Hsb & Hlen & _)
         Hnf Hcur Hc Hnext Hpush.
  assert (n' = n) as -> by congruence.
  assert (a' = a) as -> by congruence.
  assert (b' = b) as -> by congruence.
  assert (l' = l) as -> by congruence.
  destruct Hsw as [(Hs & Hw & Ha1 & Hb1) | (Hs & _)].
  2: { exfalso. apply Hnf. unfold doc_get. by rewrite Hs. }
  destruct (hit_doc_lookups _ _ _ _ _ _ _ Hpush) as (Hf' & Hs' & Hw' & (l0 & Hl0 & Hold) & Hk).
  assert (l0 = l) as ->.
  { destruct Hold as [Hold | [Hold _]]; congruence. }
  assert (Hn1 : doc' !! "cups_per_side" = Some (VInt n)).
  { rewrite Hk; try done. by destruct tm. }
  assert (Hown : doc' !! own_field tm = doc !! own_field tm).
  { apply Hk; by destruct tm. }
  assert (Hev : Forall is_hit_event (l ++ [HitEvent.model_dump (HitEvent.mk tm sh c now)])).
  { apply Forall_app. split; [done |]. apply Forall_singleton.
    by exists tm, sh, c, now. }
  assert (Hwin : forall tm', doc' !! "winner" = Some (VStr (team_code tm')) ->
                 tm' = tm /\ Z.max 0 (cur - c) = 0).
  { intros tm' Htm'. rewrite Hw' in Htm'. unfold hit_status_winner in Hnext.
    destruct (Z.max 0 (cur - c) =? 0) eqn:E; destruct Hnext as [_ ->].
    - apply Z.eqb_eq in E. split; [| done].
      symmetry. apply team_code_inj. congruence.
    - unfold doc_get in Htm'. rewrite Hw in Htm'. simpl in Htm'. discriminate. }
  unfold doc_get_or in Hcur.
  destruct tm; simpl in *.
  - rewrite Hb in Hcur. simpl in Hcur. injection Hcur as <-.
    exists n, a, (Z.max 0 (b - c)), (l ++ [HitEvent.model_dump (HitEvent.mk TeamA sh c now)])%list.
    rewrite Hown, !cups_hit_by_snoc, event_cups_own, event_cups_other by done.
    rewrite length_app, Nat2Z.inj_add. simpl.
    split_and!; try done; try lia.
    intros tm' Htm'. destruct (Hwin tm' Htm') as [-> E0]. simpl.
    split_and!.
    + by rewrite Hf', E0.
    + rewrite Hown. eauto.
    + rewrite last_snoc. eauto.
  - rewrite Ha in Hcur. simpl in Hcur. injection Hcur as <-.
    exists n, (Z.max 0 (a - c)), b, (l ++ [HitEvent.model_dump (HitEvent.mk TeamB sh c now)])%list.
    rewrite Hown, !cups_hit_by_snoc, event_cups_own, event_cups_other by done.
    rewrite length_app, Nat2Z.inj_add. simpl.
    split_and!; try done; try lia.
    intros tm' Htm'. destruct (Hwin tm' Htm') as [-> E0]. simpl.
    split_and!.
    + by rewrite Hf', E0.
    + rewrite Hown. eauto.
    + rewrite last_snoc. eauto.
Qed.

Lemma store_log_ok_insert (st : store) oid (doc : document) :
  store_log_ok st -> doc_log_ok doc -> store_log_ok (<[oid := doc]> st).
Proof.
  intros Hst Hdoc oid' doc'. rewrite lookup_insert.
  case_decide; [intros [= <-]; done | apply Hst].
Qed.

Lemma reachable_log_ok (st : store) :
  reachable ObjectId int_of_str st -> store_log_ok st.
Proof.
  induction 1 as [| st payload new_id now Hreach IH Hfresh
                  | st id p now Hreach IH | st id Hreach IH].
  - intros oid doc. by rewrite lookup_empty.
  - destruct (decide (1 <= CreateMatchRequest.cups_per_side payload <= 20)) as [Hc|Hc].
    + rewrite create_match_valid by done. simpl.
      apply store_log_ok_insert; [done | by apply created_doc_log_ok].
    + by destruct (create_match_invalid payload new_id now st Hc) as (fs & -> & _).
  - destruct (record_hit_cases ObjectId int_of_str id p now st)
      as [(e & ->) | (oid & doc & cur & s & w & doc' & _ & Hdoc & Hnf & Hcur & Hc & Hsw & Hpush & ->)];
      [done |]. simpl.
    apply store_log_ok_insert; [done |].
    by apply (hit_doc_log_ok _ _ _ _ _ _ _ _ _
                (reachable_wf _ _ st Hreach oid doc Hdoc) (IH oid doc Hdoc)
                Hnf Hcur Hc Hsw Hpush).
  - destruct (reset_match_cases ObjectId int_of_str id st)
      as [(e & ->) | (oid & doc & n & _ & Hdoc & Hn & ->)];
      [done |]. simpl.
    apply store_log_ok_insert; [done |].
    by apply reset_doc_log_ok; [apply (reachable_wf _ _ st Hreach oid doc Hdoc) |].
Qed.

(** X12. In every reachable collection the event log of a match accounts
    for its cups: every event is a valid hit (1 to 10 cups), and
    [cups_remaining_b] is [cups_per_side] less the cups of the events of team
    ['A'], clamped at 0; likewise [cups_remaining_a] and team ['B']. *)
Theorem event_log_accounts_for_cups (st : store) oid (doc : document) :
  reachable ObjectId int_of_str st -> st !! oid = Some doc ->
  exists n a b l,
    doc !! "cups_per_side" = Some (VInt n) /\
    doc !! "cups_remaining_a" = Some (VInt a) /\
    doc !! "cups_remaining_b" = Some (VInt b) /\
    doc !! "events" = Some (VList l) /\
    Forall is_hit_event l /\
    a = Z.max 0 (n - cups_hit_by TeamB l) /\
    b = Z.max 0 (n - cups_hit_by TeamA l).
Proof.
  intros Hreach Hdoc.
  destruct (reachable_log_ok st Hreach oid doc Hdoc)
    as (n & a & b & l & Hn & Ha & Hb & Hl & Hall & Hsa & Hsb & _).
  by exists n, a, b, l.
Qed.

(** X13. In every reachable collection a finished match has exactly one
    empty side: its winner is a team, the opposing side's remaining-cup
    field is 0, the winner's own field is at least 1, and the last event of
    the log is a hit of the winner. *)
Theorem finished_match_has_one_empty_side (st : store) oid (doc : document) :
  reachable ObjectId int_of_str st -> st !! oid = Some doc ->
  doc !! "status" = Some (VStr "finished") ->
  exists tm x l sh c t,
    doc !! "winner" = Some (VStr (team_code tm)) /\
    doc !! cups_field tm = Some (VInt 0) /\
    doc !! own_field tm = Some (VInt x) /\ 1 <= x /\
    doc !! "events" = Some (VList l) /\
    last l = Some (HitEvent.model_dump (HitEvent.mk tm sh c t)).
Proof.
  intros Hreach Hdoc Hfin.
  destruct (reachable_wf _ _ st Hreach oid doc Hdoc)
    as (n & a & b & l & _ & _ & _ & Hl & _ & _ & _ & Hsw).
  destruct Hsw as [(Hs & _) | (_ & tm & Hw)]; [congruence |].
  destruct (reachable_log_ok st Hreach oid doc Hdoc)
    as (n' & a' & b' & l' & _ & _ & _ & Hl' & _ & _ & _ & _ & Hwin).
  assert (l' = l) as -> by congruence.
  destruct (Hwin tm Hw) as (Hz & (x & Hx & Hx1) & (sh & c & t & Hlast)).
  by exists tm, x, l, sh, c, t.
Qed.

(** X14. In every reachable collection the event log of a match has at most
    [2 * cups_per_side - 1] events, hence never more than 39. *)
Theorem event_log_is_bounded (st : store) oid (doc : document) :
  reachable ObjectId int_of_str st -> st !! oid = Some doc ->
  exists n l,
    doc !! "cups_per_side" = Some (VInt n) /\
    doc !! "events" = Some (VList l) /\
    Z.of_nat (length l) <= 2 * n - 1 /\
    Z.of_nat (length l) <= 39.
Proof.
  intros Hreach Hdoc.
  destruct (reachable_wf _ _ st Hreach oid doc Hdoc)
    as (n & a & b & l & Hn & Ha & Hb & Hl & Hnr & Har & Hbr & Hsw).
  destruct (reachable_log_ok st Hreach oid doc Hdoc)
    as (n' & a' & b' & l' & Hn' & Ha' & Hb' & Hl' & _ & _ & _ & Hlen & Hwin).
  assert (n' = n) as -> by congruence.
  assert (a' = a) as -> by congruence.
  assert (b' = b) as -> by congruence.
  assert (l' = l) as -> by congruence.
  exists n, l. split; [done |]. split; [done |].
  assert (1 <= a + b).
  { destruct Hsw as [(_ & _ & ? & ?) | (_ & tm & Hw)]; [lia |].
    destruct (Hwin tm Hw) as (_ & (x & Hx & Hx1) & _).
    destruct tm; simpl in Hx; assert (x = a \/ x = b) as [-> | ->] by
      (first [left; congruence | right; congruence]); lia. }
  lia.
Qed.

(** ** Stored documents and the schema *)

Lemma match_doc_lookups (m : Match.t) t :
  let doc := <["created_at" := VTime t]> (Match.model_dump m) in
  doc !! "team_a" = Some (VStr (Match.team_a m)) /\
  doc !! "team_b" = Some (VStr (Match.team_b m)) /\
  doc !! "cups_per_side" = Some (VInt (Match.cups_per_side m)) /\
  doc !! "cups_remaining_a" = Some (VInt (Match.cups_remaining_a m)) /\
  doc !! "cups_remaining_b" = Some (VInt (Match.cups_remaining_b m)) /\
  doc !! "status" = Some (VStr (status_code (Match.status_ m))) /\
  doc !! "winner" = Some (opt_str (team_code <$> Match.winner m)) /\
  doc !! "events" = Some (VList (HitEvent.model_dump <$> Match.events m)) /\
  doc !! "created_at" = Some (VTime t) /\
  (forall k, k <> "team_a" -> k <> "team_b" -> k <> "cups_per_side" ->
             k <> "cups_remaining_a" -> k <> "cups_remaining_b" ->
             k <> "status" -> k <> "winner" -> k <> "events" ->
             k <> "created_at" -> doc !! k = None).
Proof.
  split_and!; try reflexivity.
  intros k ? ? ? ? ? ? ? ? ?. unfold Match.model_dump. simpl.
  rewrite !lookup_insert_ne by done. apply lookup_empty.
Qed.

(** Two documents with the nine fields of a match and nothing else are
    equal when the nine fields are. *)
Lemma match_doc_eq (doc : document) (m : Match.t) t :
  doc !! "team_a" = Some (VStr (Match.team_a m)) ->
  doc !! "team_b" = Some (VStr (Match.team_b m)) ->
  doc !! "cups_per_side" = Some (VInt (Match.cups_per_side m)) ->
  doc !! "cups_remaining_a" = Some (VInt (Match.cups_remaining_a m)) ->
  doc !! "cups_remaining_b" = Some (VInt (Match.cups_remaining_b m)) ->
  doc !! "status" = Some (VStr (status_code (Match.status_ m))) ->
  doc !! "winner" = Some (opt_str (team_code <$> Match.winner m)) ->
  doc !! "events" = Some (VList (HitEvent.model_dump <$> Match.events m)) ->
  doc !! "created_at" = Some (VTime t) ->
  (forall k, k <> "team_a" -> k <> "team_b" -> k <> "cups_per_side" ->
             k <> "cups_remaining_a" -> k <> "cups_remaining_b" ->
             k <> "status" -> k <> "winner" -> k <> "events" ->
             k <> "created_at" -> doc !! k = None) ->
  doc = <["created_at" := VTime t]> (Match.model_dump m).
Proof.
  intros H1 H2 H3 H4 H5 H6 H7 H8 H9 Hk.
  destruct (match_doc_lookups m t) as (G1 & G2 & G3 & G4 & G5 & G6 & G7 & G8 & G9 & Gk).
  apply map_eq. intros k.
  destruct (decide (k = "team_a")) as [->|]; [by rewrite H1, G1 |].
  destruct (decide (k = "team_b")) as [->|]; [by rewrite H2, G2 |].
  destruct (decide (k = "cups_per_side")) as [->|]; [by rewrite H3, G3 |].
  destruct (decide (k = "cups_remaining_a")) as [->|]; [by rewrite H4, G4 |].
  destruct (decide (k = "cups_remaining_b")) as [->|]; [by rewrite H5, G5 |].
  destruct (decide (k = "status")) as [->|]; [by rewrite H6, G6 |].
  destruct (decide (k = "winner")) as [->|]; [by rewrite H7, G7 |].
  destruct (decide (k = "events")) as [->|]; [by rewrite H8, G8 |].
  destruct (decide (k = "created_at")) as [->|]; [by rewrite H9, G9 |].
  by rewrite Hk, Gk.
Qed.

Lemma hit_doc_is_match tm sh c now cur s w (doc doc' : document) :
  doc_is_match doc ->
  py_int int_of_str (doc_get_or doc (cups_field tm) (VInt 0)) = Ok cur ->
  1 <= c <= 10 ->
  hit_status_winner doc tm (Z.max 0 (cur - c)) s w ->
  apply_push (Some ("events", HitEvent.model_dump (HitEvent.mk tm sh c now)))
    (apply_set [(cups_field tm, VInt (Z.max 0 (cur - c)));
                ("status", s); ("winner", w)] doc) = Some doc' ->
  doc_is_match doc'.
Proof.
  intros (m & t & (Hval & Hevs) & ->) Hcur Hc Hnext Hpush.
  destruct (match_doc_lookups m t) as (G1 & G2 & G3 & G4 & G5 & G6 & G7 & G8 & G9 & Gk).
  destruct (hit_doc_lookups _ _ _ _ _ _ _ Hpush) as (Hf & Hs & Hw & (l & Hl & Hold) & Hk).
  assert (l = HitEvent.model_dump <$> Match.events m) as ->.
  { destruct Hold as [Hold | [Hold _]]; congruence. }
  set (nv := Z.max 0 (cur - c)) in *.
  set (st' := if nv =? 0 then finished else Match.status_ m).
  set (wn' := if nv =? 0 then Some tm else Match.winner m).
  assert (Hs1 : s = VStr (status_code st')).
  { unfold hit_status_winner, doc_get_or in Hnext. subst st'.
    destruct (nv =? 0); destruct Hnext as [-> _]; [done |]. by rewrite G6. }
  assert (Hw1 : w = opt_str (team_code <$> wn')).
  { unfold hit_status_winner, doc_get in Hnext. subst wn'.
    destruct (nv =? 0); destruct Hnext as [_ ->]; [done |]. by rewrite G7. }
  assert (Hinv : forall cps cra crb, 0 <= nv ->
            Match.invalid_fields cps cra crb = [] ->
            Match.invalid_fields cps nv crb = [] /\ Match.invalid_fields cps cra nv = []).
  { intros cps cra crb Hnv. unfold Match.invalid_fields.
    rewrite (bool_decide_eq_true_2 (0 <= nv)) by done.
    destruct (bool_decide (1 <= cps) && bool_decide (cps <= 20)),
             (bool_decide (0 <= cra)), (bool_decide (0 <= crb)); simpl; try done. }
  assert (Hnv : 0 <= nv) by (subst nv; lia).
  destruct (Hinv _ _ _ Hnv Hval) as [Hva Hvb].
  assert (Hevs' : Forall (fun e => 1 <= HitEvent.cups e <= 10)
                    (Match.events m ++ [HitEvent.mk tm sh c now])).
  { apply Forall_app. split; [done |]. by apply Forall_singleton. }
  unfold doc_get_or in Hcur.
  destruct tm; simpl in *.
  - exists (Match.mk (Match.team_a m) (Match.team_b m) (Match.cups_per_side m)
              (Match.cups_remaining_a m) nv st' wn'
              (Match.events m ++ [HitEvent.mk TeamA sh c now])), t.
    split; [by split |].
    apply match_doc_eq; simpl; rewrite ?fmap_app; try done;
      try (rewrite Hk by done; done); try congruence.
    intros k ? ? ? ? ? ? ? ? ?. rewrite Hk by done. by apply Gk.
  - exists (Match.mk (Match.team_a m) (Match.team_b m) (Match.cups_per_side m)
              nv (Match.cups_remaining_b m) st' wn'
              (Match.events m ++ [HitEvent.mk TeamB sh c now])), t.
    split; [by split |].
    apply match_doc_eq; simpl; rewrite ?fmap_app; try done;
      try (rewrite Hk by done; done); try congruence.
    intros k ? ? ? ? ? ? ? ? ?. rewrite Hk by done. by apply Gk.
Qed.

Lemma reset_doc_is_match n (doc : document) :
  doc_is_match doc ->
  py_int int_of_str (doc_get_or doc "cups_per_side" (VInt 10)) = Ok n ->
  doc_is_match (apply_set [("cups_remaining_a", VInt n); ("cups_remaining_b", VInt n);
                           ("status", VStr "ongoing"); ("winner", VNone);
                           ("events", VList [])] doc).
Proof.
  intros (m & t & (Hval & Hevs) & ->) Hint.
  destruct (match_doc_lookups m t) as (G1 & G2 & G3 & G4 & G5 & G6 & G7 & G8 & G9 & Gk).
  unfold doc_get_or in Hint. rewrite G3 in Hint. simpl in Hint. injection Hint as <-.
  match goal with |- doc_is_match (apply_set _ ?d) =>
    destruct (reset_doc_lookups (Match.cups_per_side m) d) as (A & B & S & W & E & K) end.
  exists (Match.mk (Match.team_a m) (Match.team_b m) (Match.cups_per_side m)
            (Match.cups_per_side m) (Match.cups_per_side m) ongoing None []), t.
  split.
  - split; [| by apply Forall_nil]. revert Hval. unfold Match.invalid_fields. simpl.
    destruct (bool_decide (1 <= Match.cups_per_side m)) eqn:E1,
             (bool_decide (Match.cups_per_side m <= 20)) eqn:E2; simpl; try done.
    intros _. apply bool_decide_eq_true in E1.
    by rewrite !bool_decide_eq_true_2 by lia.
  - apply match_doc_eq; simpl; try done; try (rewrite K by done; done).
    intros k ? ? ? ? ? ? ? ? ?. rewrite K by done. by apply Gk.
Qed.

Lemma reachable_is_match (st : store) oid (doc : document) :
  reachable ObjectId int_of_str st -> st !! oid = Some doc -> doc_is_match doc.
Proof.
  intros Hreach. revert oid doc.
  induction Hreach as [| st payload new_id now Hreach IH Hfresh
                       | st id p now Hreach IH | st id Hreach IH]; intros oid0 doc0.
  - by rewrite lookup_empty.
  - destruct (decide (1 <= CreateMatchRequest.cups_per_side payload <= 20)) as [Hc|Hc].
    + rewrite create_match_valid by done. simpl. rewrite lookup_insert.
      case_decide; [| apply IH]. intros [= <-].
      eexists _, now. split; [| reflexivity].
      split; [| by apply Forall_nil]. unfold Match.invalid_fields. simpl.
      by rewrite !bool_decide_eq_true_2 by lia.
    + destruct (create_match_invalid payload new_id now st Hc) as (fs & -> & _).
      apply IH.
  - destruct (record_hit_cases ObjectId int_of_str id p now st)
      as [(e & ->) | (oid & doc & cur & s & w & doc' & _ & Hdoc & Hnf & Hcur & Hc & Hsw & Hpush & ->)];
      [apply IH |]. simpl. rewrite lookup_insert.
    case_decide; [| apply IH]. intros [= <-].
    by apply (hit_doc_is_match _ _ _ _ _ _ _ _ _ (IH oid doc Hdoc) Hcur Hc Hsw Hpush).
  - destruct (reset_match_cases ObjectId int_of_str id st)
      as [(e & ->) | (oid & doc & n & _ & Hdoc & Hn & ->)];
      [apply IH |]. simpl. rewrite lookup_insert.
    case_decide; [| apply IH]. intros [= <-].
    by apply reset_doc_is_match; [apply (IH oid doc Hdoc) |].
Qed.

(** X15. Every document of a reachable collection is the dump of a [Match]
    that passes the validation of the schema, with its creation time and no
    other field: although a hit and a reset write fields directly, what is
    stored always reads back as a valid [Match] whose events are valid
    [HitEvent]s. *)
Theorem stored_match_is_a_valid_Match (st : store) oid (doc : document) :
  reachable ObjectId int_of_str st -> st !! oid = Some doc ->
  exists (m : Match.t) t,
    doc = <["created_at" := VTime t]> (Match.model_dump m) /\
    Match.new (Match.team_a m) (Match.team_b m) (Match.cups_per_side m)
              (Match.cups_remaining_a m) (Match.cups_remaining_b m)
      = Ok (Match.mk (Match.team_a m) (Match.team_b m) (Match.cups_per_side m)
                     (Match.cups_remaining_a m) (Match.cups_remaining_b m)
                     ongoing None []) /\
    Forall (fun e => HitEvent.new (HitEvent.team_ e) (HitEvent.shooter e)
                       (HitEvent.cups e) (HitEvent.timestamp e) = Ok e)
           (Match.events m).
Proof.
  intros Hreach Hdoc.
  destruct (reachable_is_match st oid doc Hreach Hdoc) as (m & t & (Hval & Hevs) & ->).
  exists m, t. split; [done |]. split.
  - unfold Match.new. by rewrite Hval.
  - eapply Forall_impl; [exact Hevs |]. intros [tm sh c ts] Hc. simpl in *.
    by apply HitEvent_new_Ok.
Qed.

End MoreProofs.

(** * The further theorems at concrete matches *)

Lemma red_blue_finished_reachable : reachable hex24 digits_int red_blue_finished.
Proof. apply reach_hit, red_blue_store_reachable. Qed.

Lemma invalid_id_is_rejected_witness :
  get_match hex24 "not-an-id" red_blue_store
    = (Raise (HTTPException 400 "Invalid ID format"), red_blue_store) /\
  record_hit hex24 digits_int "not-an-id" (HitPayload.mk TeamA None 1) 1 red_blue_store
    = (Raise (HTTPException 400 "Invalid ID format"), red_blue_store) /\
  reset_match hex24 digits_int "not-an-id" red_blue_store
    = (Raise (HTTPException 400 "Invalid ID format"), red_blue_store).
Proof.
  apply (invalid_id_is_rejected hex24 digits_int "not-an-id"
           (HitPayload.mk TeamA None 1) 1 red_blue_store).
  reflexivity.
Defined.

Lemma unknown_match_is_not_found_witness :
  get_match hex24 red_blue_id ∅
    = (Raise (HTTPException 404 "Match not found"), ∅) /\
  record_hit hex24 digits_int red_blue_id (HitPayload.mk TeamA None 1) 1 ∅
    = (Raise (HTTPException 404 "Match not found"), ∅) /\
  reset_match hex24 digits_int red_blue_id ∅
    = (Raise (HTTPException 404 "Match not found"), ∅).
Proof.
  apply (unknown_match_is_not_found hex24 digits_int red_blue_id red_blue_id
           (HitPayload.mk TeamA None 1) 1 ∅); reflexivity.
Defined.

Lemma failed_request_writes_nothing_witness :
  (create_match (CreateMatchRequest.parse "Red" "Blue" (Some 0)) red_blue_id 0
     red_blue_store).2 = red_blue_store /\
  (record_hit hex24 digits_int red_blue_id (HitPayload.mk TeamA None 11) 1
     red_blue_store).2 = red_blue_store /\
  (reset_match hex24 digits_int "not-an-id" red_blue_store).2 = red_blue_store.
Proof.
  pose proof (failed_request_writes_nothing hex24 digits_int)
    as (Hcreate & Hhit & Hreset & _).
  split; [| split].
  - apply (Hcreate (CreateMatchRequest.parse "Red" "Blue" (Some 0)) red_blue_id 0
             red_blue_store _ (ValidationError "Match" ["cups_per_side"])).
    reflexivity.
  - apply (Hhit red_blue_id (HitPayload.mk TeamA None 11) 1 red_blue_store _
             (ValidationError "HitEvent" ["cups"])).
    reflexivity.
  - apply (Hreset "not-an-id" red_blue_store _
             (HTTPException 400 "Invalid ID format")).
    reflexivity.
Defined.

Lemma writes_touch_one_match_witness :
  (create_match (CreateMatchRequest.parse "Green" "Gold" None)
     "507f1f77bcf86cd799439012" 3 red_blue_store).2 !! red_blue_id
    = red_blue_store !! red_blue_id /\
  (record_hit hex24 digits_int "507f1f77bcf86cd799439012"
     (HitPayload.mk TeamA None 1) 1 red_blue_store).2 !! red_blue_id
    = red_blue_store !! red_blue_id /\
  (reset_match hex24 digits_int "507f1f77bcf86cd799439012"
     red_blue_store).2 !! red_blue_id
    = red_blue_store !! red_blue_id.
Proof.
  pose proof (writes_touch_one_match hex24 digits_int)
    as (Hcreate & Hhit & Hreset & _).
  split; [| split].
  - apply Hcreate. discriminate.
  - apply Hhit. discriminate.
  - apply Hreset. discriminate.
Defined.

Lemma other_fields_are_never_written_witness :
  exists doc' : document,
    red_blue_finished !! red_blue_id = Some doc' /\
    forall k, k <> "cups_remaining_a" -> k <> "cups_remaining_b" ->
              k <> "status" -> k <> "winner" -> k <> "events" ->
              doc' !! k = red_blue_doc !! k.
Proof.
  apply (proj1 (other_fields_are_never_written hex24 digits_int
                  red_blue_store red_blue_id red_blue_doc eq_refl)
           red_blue_id (HitPayload.parse TeamA (Some "Ann") (Some 5)) 1).
Defined.

Lemma get_match_after_create_match_witness :
  exists (st' : store) (d : document),
    create_match (CreateMatchRequest.parse "Red" "Blue" (Some 5)) red_blue_id 0 ∅
      = (Ok red_blue_id, st') /\
    get_match hex24 red_blue_id st' = (Ok d, st') /\
    d !! "id" = Some (VStr red_blue_id) /\
    d !! "team_a" = Some (VStr "Red") /\
    d !! "team_b" = Some (VStr "Blue") /\
    d !! "cups_per_side" = Some (VInt 5) /\
    d !! "cups_remaining_a" = Some (VInt 5) /\
    d !! "cups_remaining_b" = Some (VInt 5) /\
    d !! "status" = Some (VStr "ongoing") /\
    d !! "winner" = Some VNone /\
    d !! "events" = Some (VList []) /\
    d !! "created_at" = Some (VTime 0).
Proof.
  apply (get_match_after_create_match hex24
           (CreateMatchRequest.parse "Red" "Blue" (Some 5)) red_blue_id 0 ∅).
  - reflexivity.
  - simpl. lia.
Defined.

Lemma get_match_after_record_hit_witness :
  exists (d : document) cur l,
    get_match hex24 red_blue_id red_blue_finished = (Ok d, red_blue_finished) /\
    true = true /\
    d !! "status" = Some (VStr "finished") /\
    d !! "winner" = Some (VStr "A") /\
    py_int digits_int (doc_get_or red_blue_doc "cups_remaining_b" (VInt 0)) = Ok cur /\
    d !! "cups_remaining_b" = Some (VInt (Z.max 0 (cur - 5))) /\
    d !! "cups_remaining_a" = red_blue_doc !! "cups_remaining_a" /\
    d !! "events"
      = Some (VList (l ++ [VDict [("team", VStr "A"); ("shooter", VStr "Ann");
                                  ("cups", VInt 5); ("timestamp", VTime 1)]])) /\
    (red_blue_doc !! "events" = Some (VList l)
     \/ red_blue_doc !! "events" = None /\ l = []).
Proof.
  apply (get_match_after_record_hit hex24 digits_int red_blue_id red_blue_id
           red_blue_doc (HitPayload.parse TeamA (Some "Ann") (Some 5)) 1
           red_blue_store red_blue_finished
           (mkHitResponse true (VStr "finished") (VStr "A")));
    reflexivity.
Defined.

Lemma reset_match_twice_witness :
  reset_match hex24 digits_int red_blue_id
    (reset_match hex24 digits_int red_blue_id red_blue_finished).2
  = (Ok true, (reset_match hex24 digits_int red_blue_id red_blue_finished).2).
Proof.
  apply (reset_match_twice hex24 digits_int red_blue_id red_blue_finished _ true).
  reflexivity.
Defined.

Lemma record_hit_after_reset_match_witness :
  exists resp (doc' : document),
    record_hit hex24 digits_int red_blue_id (HitPayload.mk TeamB (Some "Bo") 2) 3
      (reset_match hex24 digits_int red_blue_id red_blue_finished).2
      = (Ok resp,
         <[red_blue_id := doc']>
           (reset_match hex24 digits_int red_blue_id red_blue_finished).2) /\
    doc' !! "cups_remaining_a" = Some (VInt (Z.max 0 (5 - 2))) /\
    doc' !! "cups_remaining_b" = Some (VInt 5) /\
    doc' !! "events"
      = Some (VList [HitEvent.model_dump (HitEvent.mk TeamB (Some "Bo") 2 3)]) /\
    (5 <= 2 ->
       doc' !! "status" = Some (VStr "finished") /\
       doc' !! "winner" = Some (VStr "B")) /\
    (2 < 5 ->
       doc' !! "status" = Some (VStr "ongoing") /\
       doc' !! "winner" = Some VNone).
Proof.
  eapply (record_hit_after_reset_match hex24 digits_int red_blue_id red_blue_id _
            (HitPayload.mk TeamB (Some "Bo") 2) 3 red_blue_finished 5).
  - reflexivity.
  - reflexivity.
  - reflexivity.
  - simpl. lia.
Defined.

Lemma record_hit_on_missing_cups_field_witness :
  exists doc' : document,
    record_hit hex24 digits_int red_blue_id (HitPayload.mk TeamA None 1) 1
      {[red_blue_id := (∅ : document)]}
      = (Ok (mkHitResponse true (VStr "finished") (VStr "A")),
         <[red_blue_id := doc']> {[red_blue_id := (∅ : document)]}) /\
    doc' !! "cups_remaining_b" = Some (VInt 0) /\
    doc' !! "status" = Some (VStr "finished") /\
    doc' !! "winner" = Some (VStr "A").
Proof.
  apply (record_hit_on_missing_cups_field hex24 digits_int red_blue_id red_blue_id
           (∅ : document) (HitPayload.mk TeamA None 1) 1
           {[red_blue_id := (∅ : document)]}).
  - reflexivity.
  - reflexivity.
  - discriminate.
  - reflexivity.
  - left. reflexivity.
  - simpl. lia.
Defined.

Lemma reset_match_on_missing_cups_per_side_witness :
  exists doc' : document,
    reset_match hex24 digits_int red_blue_id {[red_blue_id := (∅ : document)]}
      = (Ok true, <[red_blue_id := doc']> {[red_blue_id := (∅ : document)]}) /\
    doc' !! "cups_remaining_a" = Some (VInt 10) /\
    doc' !! "cups_remaining_b" = Some (VInt 10) /\
    doc' !! "cups_per_side" = None.
Proof.
  apply (reset_match_on_missing_cups_per_side hex24 digits_int red_blue_id
           red_blue_id (∅ : document) {[red_blue_id := (∅ : document)]});
    reflexivity.
Defined.

Lemma event_log_accounts_for_cups_witness :
  exists doc : document,
    red_blue_finished !! red_blue_id = Some doc /\
    exists n a b l,
      doc !! "cups_per_side" = Some (VInt n) /\
      doc !! "cups_remaining_a" = Some (VInt a) /\
      doc !! "cups_remaining_b" = Some (VInt b) /\
      doc !! "events" = Some (VList l) /\
      Forall is_hit_event l /\
      a = Z.max 0 (n - cups_hit_by TeamB l) /\
      b = Z.max 0 (n - cups_hit_by TeamA l).
Proof.
  eexists. split; [reflexivity |].
  apply (event_log_accounts_for_cups hex24 digits_int red_blue_finished red_blue_id).
  - apply red_blue_finished_reachable.
  - reflexivity.
Defined.

Lemma finished_match_has_one_empty_side_witness :
  exists doc : document,
    red_blue_finished !! red_blue_id = Some doc /\
    exists tm x l sh c t,
      doc !! "winner" = Some (VStr (team_code tm)) /\
      doc !! cups_field tm = Some (VInt 0) /\
      doc !! own_field tm = Some (VInt x) /\ 1 <= x /\
      doc !! "events" = Some (VList l) /\
      last l = Some (HitEvent.model_dump (HitEvent.mk tm sh c t)).
Proof.
  eexists. split; [reflexivity |].
  apply (finished_match_has_one_empty_side hex24 digits_int red_blue_finished
           red_blue_id).
  - apply red_blue_finished_reachable.
  - reflexivity.
  - reflexivity.
Defined.

Lemma event_log_is_bounded_witness :
  exists doc : document,
    red_blue_finished !! red_blue_id = Some doc /\
    exists n l,
      doc !! "cups_per_side" = Some (VInt n) /\
      doc !! "events" = Some (VList l) /\
      Z.of_nat (length l) <= 2 * n - 1 /\
      Z.of_nat (length l) <= 39.
Proof.
  eexists. split; [reflexivity |].
  apply (event_log_is_bounded hex24 digits_int red_blue_finished red_blue_id).
  - apply red_blue_finished_reachable.
  - reflexivity.
Defined.

Lemma stored_match_is_a_valid_Match_witness :
  exists (m : Match.t) t,
    red_blue_doc = <["created_at" := VTime t]> (Match.model_dump m) /\
    Match.new (Match.team_a m) (Match.team_b m) (Match.cups_per_side m)
              (Match.cups_remaining_a m) (Match.cups_remaining_b m)
      = Ok (Match.mk (Match.team_a m) (Match.team_b m) (Match.cups_per_side m)
                     (Match.cups_remaining_a m) (Match.cups_remaining_b m)
                     ongoing None []) /\
    Forall (fun e => HitEvent.new (HitEvent.team_ e) (HitEvent.shooter e)
                       (HitEvent.cups e) (HitEvent.timestamp e) = Ok e)
           (Match.events m).
Proof.
  apply (stored_match_is_a_valid_Match hex24 digits_int red_blue_store red_blue_id).
  - apply red_blue_store_reachable.
  - reflexivity.
Defined.
